(** * Precision Drawing Tools: the view-control operators of [pdt_view.py]

    A shallow embedding of the eight Blender operators of [pdt_view.py]
    and of the tooltip highlight helper, followed by the properties the
    specification states about them.

    Python floats are IEEE binary64 numbers: they are Rocq's primitive
    floats, and the arithmetic of the script ([x * pi / 180]) is written
    with the same operations in the same order.  The host and
    [mathutils] keep the numbers of a view and of a quaternion in single
    precision: a Python float that is stored there is rounded to
    binary32.  Python objects that the
    script mutates in place (the areas of the screen, the list of
    highlight flags) live in one host state; a reference to an area is
    its position in [context.screen.areas]. *)

From Stdlib Require Import ZArith List Bool Lia Floats.
From stdpp Require Import base list strings.

Set Warnings "-inexact-float".
Local Open Scope float_scope.

(** ** Values of [math] and [mathutils] *)

(** [math.pi] *)
Definition pi : float := 3.141592653589793.

(** A quaternion, components in the order (w, x, y, z). *)
Definition Quaternion : Type := float * float * float * float.

(** The single-precision (binary32) number nearest to [x], ties to
    even, as a Python float: what a C [float] holds of a Python float. *)
Definition to_binary32 (x : float) : float :=
  match Prim2SF x with
  | S754_finite s m e => SF2Prim (binary_round 24 128 s m e)
  | _ => x
  end.

Arguments to_binary32 : simpl never.

(** Four numbers as they are held in single precision. *)
Definition quaternion_to_binary32 (q : Quaternion) : Quaternion :=
  let '(w, x, y, z) := q in
  (to_binary32 w, to_binary32 x, to_binary32 y, to_binary32 z).

(** [mathutils.Quaternion((w, x, y, z))]: the constructor stores each
    component in single precision. *)
Definition mathutils_Quaternion (t : float * float * float * float)
  : Quaternion := quaternion_to_binary32 t.

(** A 3D vector, as the tuple the script assigns to [view_location]. *)
Definition Vector : Type := float * float * float.

Definition vector_to_binary32 (l : Vector) : Vector :=
  let '(x, y, z) := l in (to_binary32 x, to_binary32 y, to_binary32 z).

(** A 4x4 matrix as a tuple of four rows. *)
Definition Matrix : Type :=
  (float * float * float * float) * (float * float * float * float) *
  (float * float * float * float) * (float * float * float * float).

Definition matrix_to_binary32 (m : Matrix) : Matrix :=
  let '(r0, r1, r2, r3) := m in
  (quaternion_to_binary32 r0, quaternion_to_binary32 r1,
   quaternion_to_binary32 r2, quaternion_to_binary32 r3).

(** ** Host objects the script reads and writes *)

(** [bpy.types.RegionView3D]: the attributes [pdt_view.py] touches, and
    [perspective_matrix], the read-only matrix the host derives from the
    pose when [update()] is called. *)
Record RegionView3D := mkRegionView3D {
  view_rotation : Quaternion;
  view_distance : float;
  view_location : Vector;
  view_matrix : Matrix;
  is_orthographic_side_view : bool;
  perspective_matrix : Matrix
}.

(** A space of an area; [region_3d] may be [None] (the reset operator
    tests for it). *)
Record Space := mkSpace {
  region_3d : option RegionView3D
}.

(** [bpy.types.Area].  An area always shows a space, and the host keeps
    the space on display first: [spaces.active] and [spaces[0]] are the
    same object, [spaces_active] here. *)
Record Area := mkArea {
  area_type : string;
  spaces_active : Space;
  spaces_others : list Space
}.

(** [scene.pdt_pg]: the two settings this module reads. *)
Record PDTSceneProperties := mkPG {
  rotation_coords : Vector;
  vrotangle : float
}.

(** What [debug] of [pdt_functions] is given: the interpolated value is
    kept as a value instead of being formatted into the text. *)
Inductive DebugMessage :=
  | Dbg_is_orthographic_side_view (b : bool)
  | Dbg_view_distance_before (d : float)
  | Dbg_view_location_before (l : Vector)
  | Dbg_view_distance_after (d : float)
  | Dbg_view_location_after (l : Vector)
  | Dbg_view_matrix_before (m : Matrix)
  | Dbg_view_matrix_after (m : Matrix).

(** The closure [set_false] that [highlight] hands to the timer facility:
    it captures the flag list (shared, in the host state), [ui_group] and
    [redraw]. *)
Inductive Callback :=
  | set_false (ui_group : Z).

(** A registered timer of [bpy.app.timers]. *)
Record Timer := mkTimer {
  next_time : float;
  timer_function : Callback
}.

(** The host state: scene settings, the areas of the screen, the debug
    output, the panel's highlight flags, the number of [tag_redraw]
    requests on the current area, the registered timers and the host
    clock in seconds.  [PDT_PT_PanelViewControl._ui_groups] is defined in
    the sibling module [pdt_menus]; it is taken here as a Python list of
    booleans of any length and content. *)
Record Host := mkHost {
  pdt_pg : PDTSceneProperties;
  screen_areas : list Area;
  debug_output : list DebugMessage;
  ui_groups : list bool;
  redraw_tags : nat;
  timers : list Timer;
  clock : float
}.

Definition set_screen_areas (l : list Area) (h : Host) : Host :=
  mkHost (pdt_pg h) l (debug_output h) (ui_groups h) (redraw_tags h)
         (timers h) (clock h).

Definition set_debug_output (d : list DebugMessage) (h : Host) : Host :=
  mkHost (pdt_pg h) (screen_areas h) d (ui_groups h) (redraw_tags h)
         (timers h) (clock h).

Definition set_ui_groups (g : list bool) (h : Host) : Host :=
  mkHost (pdt_pg h) (screen_areas h) (debug_output h) g (redraw_tags h)
         (timers h) (clock h).

Definition set_redraw_tags (n : nat) (h : Host) : Host :=
  mkHost (pdt_pg h) (screen_areas h) (debug_output h) (ui_groups h) n
         (timers h) (clock h).

Definition set_timers (t : list Timer) (h : Host) : Host :=
  mkHost (pdt_pg h) (screen_areas h) (debug_output h) (ui_groups h)
         (redraw_tags h) t (clock h).

Definition set_clock (c : float) (h : Host) : Host :=
  mkHost (pdt_pg h) (screen_areas h) (debug_output h) (ui_groups h)
         (redraw_tags h) (timers h) c.

(** ** Python computations over the host state *)

Inductive Exception := AttributeError | IndexError | RuntimeError.

(** A call either returns a value or raises; both leave a host state. *)
Inductive Outcome (A : Type) :=
  | Returns (a : A) (h : Host)
  | Raises (e : Exception) (h : Host).
Arguments Returns {A} a h.
Arguments Raises {A} e h.

Definition Py (A : Type) : Type := Host -> Outcome A.

Definition ret {A} (a : A) : Py A := fun h => Returns a h.

Definition raise {A} (e : Exception) : Py A := fun h => Raises e h.

Definition bind {A B} (m : Py A) (k : A -> Py B) : Py B :=
  fun h => match m h with
           | Returns a h' => k a h'
           | Raises e h' => Raises e h'
           end.

Notation "x <- m ;; k" := (bind m (fun x => k))
  (at level 100, m at next level, right associativity).
Notation "m ;;; k" := (bind m (fun _ => k))
  (at level 100, right associativity).

Definition state_of {A} (o : Outcome A) : Host :=
  match o with Returns _ h => h | Raises _ h => h end.

(** The members of an operator's status set. *)
Inductive OperatorReturn :=
  | RUNNING_MODAL | CANCELLED | FINISHED | PASS_THROUGH | INTERFACE.

(** The status set an [execute] returns, e.g. [{"FINISHED"}]. *)
Definition StatusSet : Type := list OperatorReturn.

(** ** References to areas *)

Definition is_VIEW_3D (a : Area) : bool := String.eqb (area_type a) "VIEW_3D".

(** [[a for a in context.screen.areas if a.type == "VIEW_3D"]]: each
    selected area with its position in the screen, in screen order. *)
Fixpoint view_3d_from (i : nat) (l : list Area) : list (nat * Area) :=
  match l with
  | [] => []
  | a :: rest =>
      if is_VIEW_3D a then (i, a) :: view_3d_from (S i) rest
      else view_3d_from (S i) rest
  end.

Definition view_3d_areas (h : Host) : list (nat * Area) :=
  view_3d_from 0 (screen_areas h).

(** Writing through a reference: the area at position [i] of the screen
    becomes [a]. *)
Definition store_area (i : nat) (a : Area) : Py unit :=
  fun h => Returns tt (set_screen_areas (<[i := a]> (screen_areas h)) h).

Definition with_region (a : Area) (v : RegionView3D) : Area :=
  mkArea (area_type a) (mkSpace (Some v)) (spaces_others a).

(** The attribute assignments on a view are done by the host, which
    holds what is assigned in single precision. *)

(** [view.view_rotation = q]: the host stores the quaternion and takes
    the view out of its axis-aligned side view, so that
    [is_orthographic_side_view] reads [False] afterwards. *)
Definition with_view_rotation (q : Quaternion) (v : RegionView3D) : RegionView3D :=
  mkRegionView3D (quaternion_to_binary32 q) (view_distance v)
                 (view_location v) (view_matrix v)
                 false (perspective_matrix v).

(** [view.view_distance = d] *)
Definition with_view_distance (d : float) (v : RegionView3D) : RegionView3D :=
  mkRegionView3D (view_rotation v) (to_binary32 d) (view_location v)
                 (view_matrix v)
                 (is_orthographic_side_view v) (perspective_matrix v).

(** [view.view_location = l] *)
Definition with_view_location (l : Vector) (v : RegionView3D) : RegionView3D :=
  mkRegionView3D (view_rotation v) (view_distance v) (vector_to_binary32 l)
                 (view_matrix v)
                 (is_orthographic_side_view v) (perspective_matrix v).

(** [view.view_matrix = m]: besides the matrix the host rewrites the
    rotation and the location, which it derives from the matrix (the
    location with the view distance, which stays).
    [rotation_of_matrix] and [location_of_matrix] are these two
    derivations, the host's own. *)
Definition with_view_matrix
  (rotation_of_matrix : Matrix -> Quaternion)
  (location_of_matrix : Matrix -> float -> Vector)
  (m : Matrix) (v : RegionView3D) : RegionView3D :=
  let m32 := matrix_to_binary32 m in
  mkRegionView3D (rotation_of_matrix m32) (view_distance v)
                 (location_of_matrix m32 (view_distance v)) m32
                 (is_orthographic_side_view v) (perspective_matrix v).

(** [area.spaces.active.region_3d.view_rotation = q] on the area
    referenced by [(i, a)]: an attribute assignment on [None] raises. *)
Definition assign_view_rotation (r : nat * Area) (q : Quaternion) : Py unit :=
  match region_3d (spaces_active (snd r)) with
  | None => raise AttributeError
  | Some v => store_area (fst r) (with_region (snd r) (with_view_rotation q v))
  end.

(** [debug(msg)] *)
Definition debug (m : DebugMessage) : Py unit :=
  fun h => Returns tt (set_debug_output (debug_output h ++ [m]) h).

(** [for x in l: body(x)] *)
Fixpoint for_each {A} (l : list A) (body : A -> Py unit) : Py unit :=
  match l with
  | [] => ret tt
  | x :: rest => body x ;;; for_each rest body
  end.

(** ** Python list indexing *)

(** The position [l[i]] denotes in a list of length [len]: a negative
    index counts from the end, and an index outside
    [-len .. len - 1] denotes none ([IndexError]). *)
Definition py_index (len : nat) (i : Z) : option nat :=
  let i' := (if i <? 0 then i + Z.of_nat len else i)%Z in
  if ((i' <? 0) || (Z.of_nat len <=? i'))%Z then None else Some (Z.to_nat i').

(** [l[i] = x] *)
Definition list_setitem {A} (l : list A) (i : Z) (x : A) : option (list A) :=
  match py_index (length l) i with
  | Some n => Some (<[n := x]> l)
  | None => None
  end.

(** [l[i]] *)
Definition list_getitem {A} (l : list A) (i : Z) : option A :=
  match py_index (length l) i with
  | Some n => l !! n
  | None => None
  end.

(** ** The operator classes *)

(** The [type] argument of the host's [view3d.view_orbit]. *)
Inductive OrbitType := ORBITLEFT | ORBITRIGHT | ORBITUP | ORBITDOWN.

(** The [type] argument of the host's [view3d.view_roll]. *)
Inductive RollType := ANGLE | LEFT | RIGHT.

(** The eight operator classes of the module. *)
Inductive Operator :=
  | PDT_OT_ViewRot
  | PDT_OT_vRotL
  | PDT_OT_vRotR
  | PDT_OT_vRotU
  | PDT_OT_vRotD
  | PDT_OT_vRoll
  | PDT_OT_viso
  | PDT_OT_Reset3DView.

Definition operators : list Operator :=
  [PDT_OT_ViewRot; PDT_OT_vRotL; PDT_OT_vRotR; PDT_OT_vRotU; PDT_OT_vRotD;
   PDT_OT_vRoll; PDT_OT_viso; PDT_OT_Reset3DView].

Definition bl_idname (cls : Operator) : string :=
  match cls with
  | PDT_OT_ViewRot => "pdt.viewrot"
  | PDT_OT_vRotL => "pdt.viewleft"
  | PDT_OT_vRotR => "pdt.viewright"
  | PDT_OT_vRotU => "pdt.viewup"
  | PDT_OT_vRotD => "pdt.viewdown"
  | PDT_OT_vRoll => "pdt.viewroll"
  | PDT_OT_viso => "pdt.viewiso"
  | PDT_OT_Reset3DView => "pdt.reset_3d_view"
  end.

Definition bl_label (cls : Operator) : string :=
  match cls with
  | PDT_OT_ViewRot => "Rotate View"
  | PDT_OT_vRotL => "Rotate Left"
  | PDT_OT_vRotR => "Rotate Right"
  | PDT_OT_vRotU => "Rotate Up"
  | PDT_OT_vRotD => "Rotate Down"
  | PDT_OT_vRoll => "Roll View"
  | PDT_OT_viso => "Isometric View"
  | PDT_OT_Reset3DView => "Reset 3D View"
  end.

(** [bl_description], for the classes that set it; the other two have a
    class docstring only. *)
Definition bl_description (cls : Operator) : option string :=
  match cls with
  | PDT_OT_ViewRot => Some "View Rotation by Absolute Values"
  | PDT_OT_vRotL => Some "View Orbit Left by Delta Value"
  | PDT_OT_vRotR => Some "View Orbit Right by Delta Value"
  | PDT_OT_vRotU => Some "View Orbit Up by Delta Value"
  | PDT_OT_vRotD => Some "View Orbit Down by Delta Value"
  | PDT_OT_vRoll => Some "View Roll by Delta Value"
  | PDT_OT_viso => None
  | PDT_OT_Reset3DView => None
  end.

(** Options of a [bpy.props] property. *)
Inductive PropertyOption := HIDDEN | SKIP_SAVE | ANIMATABLE | LIBRARY_EDITABLE.

(** [bpy.props.IntProperty(default=..., options=...)] *)
Record IntProperty := mkIntProperty {
  prop_default : Z;
  prop_options : list PropertyOption
}.

(** The properties a class declares, by name. *)
Definition properties (cls : Operator) : list (string * IntProperty) :=
  match cls with
  | PDT_OT_ViewRot | PDT_OT_vRotL | PDT_OT_vRotR
  | PDT_OT_vRotU | PDT_OT_vRotD | PDT_OT_vRoll =>
      [("ui_group", mkIntProperty (-1) [HIDDEN; SKIP_SAVE])]
  | PDT_OT_viso | PDT_OT_Reset3DView => []
  end.

(** The declaration of property [name] in class [cls], if any. *)
Fixpoint lookup_property (name : string) (l : list (string * IntProperty))
  : option IntProperty :=
  match l with
  | [] => None
  | (n, p) :: rest => if String.eqb n name then Some p else lookup_property name rest
  end.

Definition has_option (o : PropertyOption) (p : IntProperty) : Prop :=
  In o (prop_options p).

(** ** The operators, over the host's own functions *)

Section Operators.

(** [euler_to_quaternion] of the sibling module [pdt_functions]. *)
Variable euler_to_quaternion : float -> float -> float -> Quaternion.

(** The host's built-in commands [bpy.ops.view3d.view_orbit] and
    [bpy.ops.view3d.view_roll].  A command may refuse to run and raise
    ([RuntimeError] when its poll fails in the calling context); the
    status set it returns otherwise is not used. *)
Variable view_orbit : float -> OrbitType -> Py unit.
Variable view_roll : float -> RollType -> Py unit.

(** The matrix the host derives from a pose in [RegionView3D.update()]. *)
Variable recalculate : Quaternion -> float -> Vector -> Matrix -> Matrix.

(** The rotation and the location the host derives from a view matrix
    that is assigned to [view_matrix]. *)
Variable rotation_of_matrix : Matrix -> Quaternion.
Variable location_of_matrix : Matrix -> float -> Vector.

(** [view.update()]: the host recalculates what it derives from the
    pose; the pose attributes stay as they were assigned. *)
Definition update (v : RegionView3D) : RegionView3D :=
  mkRegionView3D (view_rotation v) (view_distance v) (view_location v)
                 (view_matrix v) (is_orthographic_side_view v)
                 (recalculate (view_rotation v) (view_distance v)
                              (view_location v) (view_matrix v)).

(** *** The tooltip highlight *)

(** [redraw()], the bound [context.area.tag_redraw]. *)
Definition redraw : Py unit :=
  fun h => Returns tt (set_redraw_tags (S (redraw_tags h)) h).

(** [ui_groups[ui_group] = value] on the shared flag list. *)
Definition ui_groups_setitem (ui_group : Z) (value : bool) : Py unit :=
  fun h => match list_setitem (ui_groups h) ui_group value with
           | Some flags => Returns tt (set_ui_groups flags h)
           | None => Raises IndexError h
           end.

(** [bpy.app.timers.register(function, first_interval=...)]: the
    function is due [first_interval] seconds from now. *)
Definition timers_register (function : Callback) (first_interval : float)
  : Py unit :=
  fun h => Returns tt
    (set_timers (timers h ++ [mkTimer (clock h + first_interval) function]) h).

Definition highlight (ui_group : Z) : Py unit :=
  ui_groups_setitem ui_group true ;;;
  redraw ;;;
  timers_register (set_false ui_group) 2.0.

(** The body of a registered function; [set_false] ends without a
    [return], so it returns [None]. *)
Definition call (f : Callback) : Py (option float) :=
  match f with
  | set_false ui_group =>
      ui_groups_setitem ui_group false ;;;
      redraw ;;;
      ret None
  end.

(** The [description] hook, the same in each class that has one; it
    returns [cls.bl_description]. *)
Definition description_hook (text : string) (ui_group : Z) : Py string :=
  (if (ui_group =? -1)%Z then ret tt else highlight ui_group) ;;;
  ret text.

(** [cls.description(context, self)] with [self.ui_group = ui_group],
    for the six classes that define the hook (the ones that set
    [bl_description]). *)
Definition description (cls : Operator) (ui_group : Z) : option (Py string) :=
  match bl_description cls with
  | Some text => Some (description_hook text ui_group)
  | None => None
  end.

(** Modelled from the spec: the host's timer facility, which is not part
    of [pdt_view.py] ("a one-shot deferred callback, fired after a fixed
    delay by the host's scheduler").  When the host clock reaches [now],
    each registered function that is due runs once, in registration
    order.  A function that returns [None] is unregistered; one that
    returns a number is due again that many seconds later; one that
    raises is reported by the host and unregistered. *)
Fixpoint run_timers (now : float) (ts : list Timer) (h : Host)
  : list Timer * Host :=
  match ts with
  | [] => ([], h)
  | t :: rest =>
      if next_time t <=? now then
        match call (timer_function t) h with
        | Returns (Some again) h' =>
            let (kept, h'') := run_timers now rest h' in
            (mkTimer (now + again) (timer_function t) :: kept, h'')
        | Returns None h' => run_timers now rest h'
        | Raises _ h' => run_timers now rest h'
        end
      else
        let (kept, h') := run_timers now rest h in (t :: kept, h')
  end.

(** Modelled from the spec: the host's event loop reaching time [now]. *)
Definition tick (now : float) (h : Host) : Host :=
  let (kept, h') := run_timers now (timers h) (set_clock now h) in
  set_timers kept h'.

(** *** [execute] *)

(** In each [execute] the test [len(areas) > 0] is the match on the
    selection: the list has a head, [areas[0]], exactly when the test
    holds. *)
Definition PDT_OT_ViewRot_execute : Py StatusSet := fun context =>
  let pg := pdt_pg context in
  let areas := view_3d_areas context in
  match areas with
  | area0 :: _ =>
      let '(x, y, z) := rotation_coords pg in
      let roll_value :=
        euler_to_quaternion (x * pi / 180) (y * pi / 180) (z * pi / 180) in
      (assign_view_rotation area0 roll_value ;;; ret [FINISHED]) context
  | [] => ret [FINISHED] context
  end.

(** The four orbit operators differ in the [type] they pass only. *)
Definition orbit_execute (type : OrbitType) : Py StatusSet := fun context =>
  let pg := pdt_pg context in
  let areas := view_3d_areas context in
  match areas with
  | _ :: _ =>
      (view_orbit (vrotangle pg * pi / 180) type ;;; ret [FINISHED]) context
  | [] => ret [FINISHED] context
  end.

Definition PDT_OT_vRotL_execute : Py StatusSet := orbit_execute ORBITLEFT.
Definition PDT_OT_vRotR_execute : Py StatusSet := orbit_execute ORBITRIGHT.
Definition PDT_OT_vRotU_execute : Py StatusSet := orbit_execute ORBITUP.
Definition PDT_OT_vRotD_execute : Py StatusSet := orbit_execute ORBITDOWN.

Definition PDT_OT_vRoll_execute : Py StatusSet := fun context =>
  let pg := pdt_pg context in
  let areas := view_3d_areas context in
  match areas with
  | _ :: _ =>
      (view_roll (vrotangle pg * pi / 180) ANGLE ;;; ret [FINISHED]) context
  | [] => ret [FINISHED] context
  end.

Definition PDT_OT_viso_execute : Py StatusSet := fun context =>
  let areas := view_3d_areas context in
  match areas with
  | area0 :: _ =>
      (assign_view_rotation area0
         (mathutils_Quaternion (0.8205, 0.4247, -0.1759, -0.3399)) ;;;
       ret [FINISHED]) context
  | [] => ret [FINISHED] context
  end.

(** The default [view_distance] to the origin when starting up Blender. *)
Definition default_view_distance : float := 17.986562728881836.

(** The default [view_matrix] when starting up Blender. *)
Definition default_view_matrix : Matrix :=
  ((0.41, -0.4017, 0.8188, 0.0),
   (0.912, 0.1936, -0.3617, 0.0),
   (-0.0133, 0.8950, 0.4458, 0.0),
   (0.0, 0.0, -17.9866, 1.0)).

(** The body of the reset loop for one [VIEW_3D] area.  The area is
    read as it was when the loop started: no pass writes an area that a
    later pass reads.  The two or three attribute writes of a branch
    reach the host state in one store. *)
Definition reset_area (area : nat * Area) : Py unit :=
  match region_3d (spaces_active (snd area)) with
  | None => ret tt
  | Some view =>
      debug (Dbg_is_orthographic_side_view (is_orthographic_side_view view)) ;;;
      if is_orthographic_side_view view then
        debug (Dbg_view_distance_before (view_distance view)) ;;;
        debug (Dbg_view_location_before (view_location view)) ;;;
        let view1 := with_view_distance default_view_distance view in
        let view2 := with_view_location (-0.0, -0.0, -0.0) view1 in
        let view3 := update view2 in
        store_area (fst area) (with_region (snd area) view3) ;;;
        debug (Dbg_view_distance_after (view_distance view3)) ;;;
        debug (Dbg_view_location_after (view_location view3))
      else
        debug (Dbg_view_matrix_before (view_matrix view)) ;;;
        let view1 :=
          with_view_matrix rotation_of_matrix location_of_matrix
                           default_view_matrix view in
        let view2 := update view1 in
        store_area (fst area) (with_region (snd area) view2) ;;;
        debug (Dbg_view_matrix_after (view_matrix view2))
  end.

Definition PDT_OT_Reset3DView_execute : Py StatusSet := fun context =>
  (for_each (view_3d_areas context) reset_area ;;; ret [FINISHED]) context.

(** What one pass of the loop body makes of a view: the value of the
    [if] on [is_orthographic_side_view]. *)
Definition reset_view (v : RegionView3D) : RegionView3D :=
  if is_orthographic_side_view v then
    update
      (with_view_location (-0.0, -0.0, -0.0)
         (with_view_distance default_view_distance v))
  else
    update (with_view_matrix rotation_of_matrix location_of_matrix
                             default_view_matrix v).

(** What the operator makes of an area of the screen. *)
Definition reset_result (a : Area) : Area :=
  if is_VIEW_3D a then
    match region_3d (spaces_active a) with
    | Some v => with_region a (reset_view v)
    | None => a
    end
  else a.

(** The debug lines the loop writes for an area of the screen: none
    for an area that is not a 3D view or has no view, and else the line
    of the flag and the lines of the branch taken. *)
Definition reset_lines (a : Area) : list DebugMessage :=
  if is_VIEW_3D a then
    match region_3d (spaces_active a) with
    | Some v =>
        Dbg_is_orthographic_side_view (is_orthographic_side_view v) ::
        if is_orthographic_side_view v then
          [Dbg_view_distance_before (view_distance v);
           Dbg_view_location_before (view_location v);
           Dbg_view_distance_after (view_distance (reset_view v));
           Dbg_view_location_after (view_location (reset_view v))]
        else
          [Dbg_view_matrix_before (view_matrix v);
           Dbg_view_matrix_after (view_matrix (reset_view v))]
    | None => []
    end
  else [].

(** [cls.execute(self, context)]; no [execute] reads [self]. *)
Definition execute (cls : Operator) : Py StatusSet :=
  match cls with
  | PDT_OT_ViewRot => PDT_OT_ViewRot_execute
  | PDT_OT_vRotL => PDT_OT_vRotL_execute
  | PDT_OT_vRotR => PDT_OT_vRotR_execute
  | PDT_OT_vRotU => PDT_OT_vRotU_execute
  | PDT_OT_vRotD => PDT_OT_vRotD_execute
  | PDT_OT_vRoll => PDT_OT_vRoll_execute
  | PDT_OT_viso => PDT_OT_viso_execute
  | PDT_OT_Reset3DView => PDT_OT_Reset3DView_execute
  end.

End Operators.

(** ** Descriptions used to state the properties *)

(** Two host states that differ at most in the areas of the screen and in
    the debug output. *)
Definition same_settings (h h' : Host) : Prop :=
  pdt_pg h' = pdt_pg h /\ ui_groups h' = ui_groups h /\
  redraw_tags h' = redraw_tags h /\ timers h' = timers h /\ clock h' = clock h.

(** No area of the screen is a 3D view. *)
Definition no_view_3d (h : Host) : Prop :=
  forall a, In a (screen_areas h) -> is_VIEW_3D a = false.

(** The area at position [i] is the first 3D view of the screen. *)
Definition first_view_3d (h : Host) (i : nat) (a : Area) : Prop :=
  screen_areas h !! i = Some a /\
  is_VIEW_3D a = true /\
  forall j b, (j < i)%nat -> screen_areas h !! j = Some b -> is_VIEW_3D b = false.

(** Class [cls] declares [ui_group] as an integer property with default
    [-1] that is hidden and not saved between calls. *)
Definition declares_ui_group (cls : Operator) : Prop :=
  exists p,
    lookup_property "ui_group" (properties cls) = Some p /\
    prop_default p = (-1)%Z /\
    has_option HIDDEN p /\ has_option SKIP_SAVE p.

(** Every [execute] returns [{"FINISHED"}] from every host state, and
    changes nothing when the screen has no 3D view: the reading of the
    specification that takes "every invocation" without exception. *)
Definition every_execute_finishes : Prop :=
  forall euler_to_quaternion view_orbit view_roll recalculate
         rotation_of_matrix location_of_matrix cls h,
  exists h',
    execute euler_to_quaternion view_orbit view_roll recalculate
           rotation_of_matrix location_of_matrix cls h
      = Returns [FINISHED] h' /\
    (no_view_3d h -> h' = h).

(** The call of a host command an orbit or roll operator makes on a
    screen with a 3D view, run from [h]; the other three operators call
    no host command. *)
Definition delegated_call
  (view_orbit : float -> OrbitType -> Py unit)
  (view_roll : float -> RollType -> Py unit)
  (cls : Operator) (h : Host) : option (Outcome unit) :=
  let angle := vrotangle (pdt_pg h) * pi / 180 in
  match cls with
  | PDT_OT_vRotL => Some (view_orbit angle ORBITLEFT h)
  | PDT_OT_vRotR => Some (view_orbit angle ORBITRIGHT h)
  | PDT_OT_vRotU => Some (view_orbit angle ORBITUP h)
  | PDT_OT_vRotD => Some (view_orbit angle ORBITDOWN h)
  | PDT_OT_vRoll => Some (view_roll angle ANGLE h)
  | PDT_OT_ViewRot | PDT_OT_viso | PDT_OT_Reset3DView => None
  end.

(** Every one of the eight classes declares [ui_group]. *)
Definition every_operator_declares_ui_group : Prop :=
  forall cls, In cls operators -> declares_ui_group cls.

(** The sign bit of a binary64 number ([true] for negative, zeros
    included); a NaN has none. *)
Definition sign_of_spec (x : spec_float) : option bool :=
  match x with
  | S754_nan => None
  | S754_zero s | S754_infinity s | S754_finite s _ _ => Some s
  end.

Definition sign_of (x : float) : option bool := sign_of_spec (Prim2SF x).

(** Python's [==] on the tuples assigned to [view_location]. *)
Definition vector_eqb (a b : Vector) : bool :=
  let '(ax, ay, az) := a in
  let '(bx, by', bz) := b in
  (ax =? bx) && (ay =? by') && (az =? bz).

(** The debug lines of the branch that resets distance and location. *)
Definition distance_location_branch (trace : list DebugMessage) : Prop :=
  exists d l d' l',
    trace = [Dbg_view_distance_before d; Dbg_view_location_before l;
             Dbg_view_distance_after d'; Dbg_view_location_after l'].

(** The debug lines of the branch that resets the view matrix. *)
Definition view_matrix_branch (trace : list DebugMessage) : Prop :=
  exists m m', trace = [Dbg_view_matrix_before m; Dbg_view_matrix_after m'].

(** The flag a pending timer clears when it fires, in a flag list of
    length [len]. *)
Definition target (len : nat) (t : Timer) : option nat :=
  match timer_function t with
  | set_false ui_group => py_index len ui_group
  end.

(** The highlight as the specification states it: a tooltip request with
    a [ui_group] other than [-1], made while the flag is false, returns
    the description with the flag set, and from then on the flag is true
    exactly until the host clock reaches the time of the request plus
    2.0 seconds. *)
Definition highlight_window_claim : Prop :=
  forall cls text h ui_group,
    bl_description cls = Some text ->
    ui_group <> (-1)%Z ->
    list_getitem (ui_groups h) ui_group = Some false ->
    exists p h1,
      description cls ui_group = Some p /\
      p h = Returns text h1 /\
      list_getitem (ui_groups h1) ui_group = Some true /\
      forall now,
        (clock h <=? now) = true ->
        list_getitem (ui_groups (tick now h1)) ui_group
          = Some (negb (clock h + 2.0 <=? now)).

(** ** A concrete host, to run the operators on *)

Definition sample_euler_to_quaternion (x y z : float) : Quaternion :=
  mathutils_Quaternion (1.0, x, y, z).

(** A host command that runs and asks for a redraw. *)
Definition sample_view_orbit (angle : float) (type : OrbitType) : Py unit :=
  fun h => Returns tt (set_redraw_tags (S (redraw_tags h)) h).

Definition sample_view_roll (angle : float) (type : RollType) : Py unit :=
  fun h => Returns tt (set_redraw_tags (S (redraw_tags h)) h).

(** A host command whose poll fails in the calling context: it raises
    [RuntimeError] and changes nothing. *)
Definition refusing_view_orbit (angle : float) (type : OrbitType) : Py unit :=
  raise RuntimeError.

Definition sample_recalculate (q : Quaternion) (d : float) (l : Vector)
  (m : Matrix) : Matrix := m.

Definition sample_rotation_of_matrix (m : Matrix) : Quaternion :=
  (1.0, 0.0, 0.0, 0.0).

Definition sample_location_of_matrix (m : Matrix) (d : float) : Vector :=
  (0.0, 0.0, d).

Definition identity_matrix : Matrix :=
  ((1.0, 0.0, 0.0, 0.0), (0.0, 1.0, 0.0, 0.0),
   (0.0, 0.0, 1.0, 0.0), (0.0, 0.0, 0.0, 1.0)).

(** A user view and a front orthographic view. *)
Definition user_view : RegionView3D :=
  mkRegionView3D (1.0, 0.0, 0.0, 0.0) 10.0 (1.0, 2.0, 3.0) identity_matrix
                 false identity_matrix.

Definition front_view : RegionView3D :=
  mkRegionView3D (mathutils_Quaternion (0.7071, 0.7071, 0.0, 0.0)) 5.0
                 (1.0, 0.0, 2.0)
                 identity_matrix true identity_matrix.

Definition area_of (type : string) (v : option RegionView3D) : Area :=
  mkArea type (mkSpace v) [].

Definition sample_pg : PDTSceneProperties := mkPG (90.0, 0.0, 45.0) 30.0.

Definition host_with (areas : list Area) : Host :=
  mkHost sample_pg areas [] [false; false] 0 [] 0.0.

(** A screen with a properties editor, a user 3D view and a front view. *)
Definition sample_host : Host :=
  host_with [area_of "PROPERTIES" None; area_of "VIEW_3D" (Some user_view);
             area_of "VIEW_3D" (Some front_view)].

(** A screen without a 3D view. *)
Definition host_without_view_3d : Host :=
  host_with [area_of "PROPERTIES" None; area_of "OUTLINER" None].

(** A screen whose only 3D view area has no [region_3d]. *)
Definition host_without_region : Host :=
  host_with [area_of "VIEW_3D" None].

(** Three tooltip requests for group 0: at 0 s and at 1 s, and, once the
    first callback has cleared the flag at 2 s, the state at 2.5 s in
    which the third is made.  The callback of the second request is
    still pending, due at 3 s. *)
Definition tooltip_at (now : float) (h : Host) : Host :=
  state_of (description_hook "View Rotation by Absolute Values" 0
              (tick now h)).

Definition host_with_pending_callback : Host :=
  tick 2.5 (tick 2.0 (tooltip_at 1.0 (tooltip_at 0.0 (host_with [])))).

(** The shape the two operators that write a rotation share,
    [pdt.viewrot] and [pdt.viewiso]: the quaternion [q] goes to the
    first selected area, if there is one.  It is used to state lemmas
    about both at once. *)
Definition write_first_rotation (q : Quaternion) : Py StatusSet := fun context =>
  match view_3d_areas context with
  | area0 :: _ => (assign_view_rotation area0 q ;;; ret [FINISHED]) context
  | [] => ret [FINISHED] context
  end.

(** A binary64 number that is a zero, an infinity or a NaN. *)
Definition zero_infinity_or_nan (x : float) : Prop :=
  match Prim2SF x with
  | S754_finite _ _ _ => False
  | _ => True
  end.

(** Every flag that is set has a registered callback that will clear it. *)
Definition highlight_pending (h : Host) : Prop :=
  forall n,
    ui_groups h !! n = Some true ->
    Exists (fun t => target (length (ui_groups h)) t = Some n) (timers h).

(** Every registered timer is due at time [now]. *)
Definition all_due (now : float) (h : Host) : Prop :=
  Forall (fun t => (next_time t <=? now) = true) (timers h).

(** The host right after one tooltip request for group 0 at 0 s. *)
Definition host_after_tooltip : Host := tooltip_at 0.0 (host_with []).

(** A screen whose 3D view areas have no [region_3d]. *)
Definition host_with_empty_views : Host :=
  host_with [area_of "VIEW_3D" None; area_of "OUTLINER" None;
             area_of "VIEW_3D" None].

(** The sample screen with a zero delta angle and rotation angles
    0, -0 and infinity. *)
Definition host_with_special_angles : Host :=
  mkHost (mkPG (0.0, -0.0, infinity) (-0.0)) (screen_areas sample_host)
         [] [false; false] 0 [] 0.0.

Local Close Scope float_scope.

(** * Properties *)

(** ** The selection of the 3D view areas *)

Lemma view_3d_from_none (l : list Area) (i : nat) :
  (forall a, In a l -> is_VIEW_3D a = false) -> view_3d_from i l = [].
Proof.
  revert i; induction l as [|a l IH]; intros i H; simpl; [reflexivity|].
  rewrite (H a (or_introl eq_refl)). apply IH. intros b Hb. apply H. now right.
Qed.

Lemma view_3d_from_some (l : list Area) (i : nat) :
  (exists a, In a l /\ is_VIEW_3D a = true) -> view_3d_from i l <> [].
Proof.
  revert i; induction l as [|a l IH]; intros i [b [Hin Hb]]; simpl.
  - destruct Hin.
  - destruct (is_VIEW_3D a) eqn:Ha; [discriminate|].
    apply IH. exists b. split; [|exact Hb].
    destruct Hin as [->|Hin]; [congruence | exact Hin].
Qed.

(** The head of the selection is the first [VIEW_3D] area of the screen. *)
Lemma view_3d_from_first (l : list Area) (i k : nat) (a : Area) :
  l !! k = Some a ->
  is_VIEW_3D a = true ->
  (forall j b, (j < k)%nat -> l !! j = Some b -> is_VIEW_3D b = false) ->
  exists rest, view_3d_from i l = (i + k, a)%nat :: rest.
Proof.
  revert i k; induction l as [|b l IH]; intros i k Hk Ha Hfirst.
  - destruct k; discriminate.
  - destruct k as [|k]; simpl in *.
    + injection Hk as ->. rewrite Ha, Nat.add_0_r. eauto.
    + rewrite (Hfirst 0%nat b) by first [lia | reflexivity].
      destruct (IH (S i) k Hk Ha) as [rest Hrest].
      * intros j c Hj Hc. apply (Hfirst (S j) c); [lia | exact Hc].
      * exists rest. rewrite Hrest. f_equal. f_equal. lia.
Qed.

(** ** The effect of the reset loop *)

Lemma same_settings_refl (h : Host) : same_settings h h.
Proof. repeat split. Qed.

Lemma same_settings_trans (h1 h2 h3 : Host) :
  same_settings h1 h2 -> same_settings h2 h3 -> same_settings h1 h3.
Proof.
  unfold same_settings. intros (A1 & A2 & A3 & A4 & A5) (B1 & B2 & B3 & B4 & B5).
  repeat split; congruence.
Qed.

(** The defaults the reset operator assigns to distance and location
    are single-precision numbers: the host holds them as they are
    written. *)
Lemma default_view_distance_binary32 :
  to_binary32 default_view_distance = 17.986562728881836%float.
Proof. vm_compute. reflexivity. Qed.

Lemma default_view_location_binary32 :
  vector_to_binary32 (-0.0, -0.0, -0.0)%float = (-0.0, -0.0, -0.0)%float.
Proof. vm_compute. reflexivity. Qed.

(** The default view matrix as a view holds it: ten of its entries are
    not single-precision numbers and are rounded. *)
Lemma default_view_matrix_binary32 :
  matrix_to_binary32 default_view_matrix =
    ((0.40999999642372131, -0.40169999003410339, 0.81879997253417969, 0.0),
     (0.91200000047683716, 0.19359999895095825, -0.36169999837875366, 0.0),
     (-0.013299999758601189, 0.89499998092651367, 0.44580000638961792, 0.0),
     (0.0, 0.0, -17.986600875854492, 1.0))%float.
Proof. vm_compute. reflexivity. Qed.

Section ResetLoop.

Variable recalculate : Quaternion -> float -> Vector -> Matrix -> Matrix.
Variable rotation_of_matrix : Matrix -> Quaternion.
Variable location_of_matrix : Matrix -> float -> Vector.

Local Abbreviation reset_area :=
  (reset_area recalculate rotation_of_matrix location_of_matrix).
Local Abbreviation reset_view :=
  (reset_view recalculate rotation_of_matrix location_of_matrix).
Local Abbreviation reset_result :=
  (reset_result recalculate rotation_of_matrix location_of_matrix).
Local Abbreviation reset_lines :=
  (reset_lines recalculate rotation_of_matrix location_of_matrix).
Local Abbreviation PDT_OT_Reset3DView_execute :=
  (PDT_OT_Reset3DView_execute recalculate rotation_of_matrix
     location_of_matrix).

Lemma insert_middle (pre l : list Area) (a b : Area) :
  <[length pre := b]> (pre ++ a :: l) = pre ++ b :: l.
Proof.
  rewrite insert_app_r_alt by lia. now rewrite Nat.sub_diag.
Qed.

(** One pass of the loop body rewrites the area it refers to and
    nothing else but the debug output. *)
Lemma reset_area_effect (pre l : list Area) (a : Area) (h : Host) :
  screen_areas h = pre ++ a :: l ->
  is_VIEW_3D a = true ->
  exists h',
    reset_area (length pre, a) h = Returns tt h' /\
    screen_areas h' = pre ++ reset_result a :: l /\
    same_settings h h'.
Proof.
  intros Hh Ha. unfold reset_area, reset_result. rewrite Ha. simpl.
  destruct (region_3d (spaces_active a)) as [v|] eqn:Hv.
  - unfold reset_view.
    destruct (is_orthographic_side_view v);
      (eexists; split; [reflexivity|]; split; [|repeat split]);
      simpl; rewrite Hh; apply insert_middle.
  - exists h. split; [reflexivity|]. split; [exact Hh | apply same_settings_refl].
Qed.

Lemma reset_loop_effect (l pre : list Area) (h : Host) :
  screen_areas h = pre ++ l ->
  exists h',
    for_each (view_3d_from (length pre) l) reset_area h
      = Returns tt h' /\
    screen_areas h' = pre ++ (reset_result <$> l) /\
    same_settings h h'.
Proof.
  revert pre h; induction l as [|a l IH]; intros pre h Hh; simpl.
  - exists h. split; [reflexivity|]. split; [exact Hh | apply same_settings_refl].
  - destruct (is_VIEW_3D a) eqn:Ha.
    + destruct (reset_area_effect pre l a h Hh Ha) as (h1 & Hrun & Hareas & Hsame).
      destruct (IH (pre ++ [reset_result a]) h1) as (h2 & Hrun2 & Hareas2 & Hsame2).
      { rewrite Hareas, <- app_assoc. reflexivity. }
      rewrite length_app, Nat.add_1_r in Hrun2.
      exists h2. split; [|split].
      * simpl. unfold bind. rewrite Hrun. exact Hrun2.
      * rewrite Hareas2, <- app_assoc. reflexivity.
      * eapply same_settings_trans; eassumption.
    + destruct (IH (pre ++ [a]) h) as (h2 & Hrun2 & Hareas2 & Hsame2).
      { rewrite Hh, <- app_assoc. reflexivity. }
      rewrite length_app, Nat.add_1_r in Hrun2.
      exists h2. split; [exact Hrun2|]. split; [|exact Hsame2].
      rewrite Hareas2, <- app_assoc. simpl. unfold reset_result at 2.
      now rewrite Ha.
Qed.

(** The reset operator always returns, and maps [reset_result] over the
    areas of the screen. *)
Lemma Reset3DView_effect (h : Host) :
  exists h',
    PDT_OT_Reset3DView_execute h = Returns [FINISHED] h' /\
    screen_areas h' = reset_result <$> screen_areas h /\
    same_settings h h'.
Proof.
  destruct (reset_loop_effect (screen_areas h) [] h eq_refl) as (h' & Hrun & Ha & Hs).
  exists h'. split; [|split; assumption].
  unfold PDT_OT_Reset3DView_execute, bind, view_3d_areas. simpl in Hrun.
  rewrite Hrun. reflexivity.
Qed.

(** One pass of the loop body appends the lines of its area to the
    debug output. *)
Lemma reset_area_debug (i : nat) (a : Area) (h : Host) :
  is_VIEW_3D a = true ->
  exists h',
    reset_area (i, a) h
      = Returns tt h' /\
    debug_output h' =
      debug_output h ++
      reset_lines a.
Proof.
  intros Ha. unfold reset_area, reset_lines. rewrite Ha. cbn [snd fst].
  destruct (region_3d (spaces_active a)) as [v|].
  - unfold reset_view.
    destruct (is_orthographic_side_view v);
      (eexists; split; [reflexivity|]); simpl;
      repeat rewrite <- app_assoc; reflexivity.
  - exists h. split; [reflexivity|]. now rewrite app_nil_r.
Qed.

Lemma reset_loop_debug (l : list Area) (i : nat) (h h' : Host) :
  for_each (view_3d_from i l)
           reset_area h
    = Returns tt h' ->
  debug_output h' =
    debug_output h ++
    concat (reset_lines
              <$> l).
Proof.
  revert i h; induction l as [|a l IH]; intros i h Hrun; simpl in Hrun.
  - injection Hrun as <-. simpl. now rewrite app_nil_r.
  - rewrite fmap_cons. cbn [concat]. destruct (is_VIEW_3D a) eqn:Ha.
    + destruct (reset_area_debug i a h Ha) as (h1 & Hrun1 & Hdebug).
      simpl in Hrun. unfold bind in Hrun. rewrite Hrun1 in Hrun.
      rewrite (IH _ _ Hrun), Hdebug, <- app_assoc. reflexivity.
    + rewrite (IH _ _ Hrun). unfold reset_lines at 2. now rewrite Ha.
Qed.

(** The debug output of the reset operator: the lines of the areas of
    the screen, in screen order. *)
Lemma Reset3DView_debug (h h' : Host) :
  PDT_OT_Reset3DView_execute h = Returns [FINISHED] h' ->
  debug_output h' =
    debug_output h ++
    concat (reset_lines
              <$> screen_areas h).
Proof.
  unfold PDT_OT_Reset3DView_execute, bind, view_3d_areas. intros Hrun.
  destruct (for_each _ _ h) as [[] h1|e h1] eqn:Hloop; [|discriminate].
  injection Hrun as <-. exact (reset_loop_debug _ _ _ _ Hloop).
Qed.

Lemma reset_view_idempotent (v : RegionView3D) :
  reset_view (reset_view v) = reset_view v.
Proof.
  unfold reset_view.
  destruct (is_orthographic_side_view v) eqn:Hv; simpl; rewrite Hv; reflexivity.
Qed.

Lemma reset_result_idempotent (a : Area) :
  reset_result (reset_result a) = reset_result a.
Proof.
  unfold reset_result. destruct (is_VIEW_3D a) eqn:Ha.
  - destruct (region_3d (spaces_active a)) as [v|] eqn:Hv.
    + unfold is_VIEW_3D in *. simpl. rewrite Ha. unfold with_region. simpl.
      now rewrite reset_view_idempotent.
    + now rewrite Ha, Hv.
  - now rewrite Ha.
Qed.

End ResetLoop.

(** ** The conversion from degrees to radians *)

(** Rounding a non-negative significand keeps the sign it is given. *)
Lemma shr_1_nonneg (r : shr_record) : (0 <= shr_m r)%Z -> (0 <= shr_m (shr_1 r))%Z.
Proof.
  destruct r as [m b s]. simpl. intros Hm.
  destruct m as [|[p|p|]|p]; simpl; lia.
Qed.

Lemma iter_pos_shr_1_nonneg (p : positive) (r : shr_record) :
  (0 <= shr_m r)%Z -> (0 <= shr_m (SpecFloat.iter_pos shr_1 p r))%Z.
Proof.
  revert r; induction p as [p IH|p IH|]; intros r Hr; simpl.
  - apply IH, IH, shr_1_nonneg, Hr.
  - apply IH, IH, Hr.
  - apply shr_1_nonneg, Hr.
Qed.

Lemma shr_fexp_nonneg (prec emax m e : Z) (l : location) :
  (0 <= m)%Z -> (0 <= shr_m (fst (shr_fexp prec emax m e l)))%Z.
Proof.
  intros Hm. unfold shr_fexp, shr.
  assert (H0 : (0 <= shr_m (shr_record_of_loc m l))%Z)
    by (destruct l as [|[| |]]; exact Hm).
  destruct (fexp prec emax (Zdigits2 m + e) - e)%Z; simpl;
    [exact H0 | apply iter_pos_shr_1_nonneg, H0 | exact H0].
Qed.

Lemma round_nearest_even_nonneg (m : Z) (l : location) :
  (0 <= m)%Z -> (0 <= round_nearest_even m l)%Z.
Proof.
  intros Hm. destruct l as [|[| |]]; simpl; try lia.
  destruct (Z.even m); lia.
Qed.

Lemma binary_round_aux_sign (prec emax : Z) (s : bool) (m e : Z) (l : location) :
  (0 <= m)%Z ->
  sign_of_spec (binary_round_aux prec emax s m e l) = Some s.
Proof.
  intros Hm. unfold binary_round_aux.
  pose proof (shr_fexp_nonneg prec emax m e l Hm) as H1.
  destruct (shr_fexp prec emax m e l) as [r1 e1]. simpl in H1.
  pose proof (shr_fexp_nonneg prec emax _ e1 loc_Exact
                (round_nearest_even_nonneg _ (loc_of_shr_record r1) H1)) as H2.
  destruct (shr_fexp prec emax _ e1 loc_Exact) as [r2 e2]. simpl in H2.
  destruct (shr_m r2); [reflexivity | | lia].
  destruct (e2 <=? emax - prec)%Z; reflexivity.
Qed.

Lemma SFdiv_core_binary_nonneg (prec emax : Z) (m1 m2 : positive) (e1 e2 : Z) :
  (0 <= fst (fst (SFdiv_core_binary prec emax (Zpos m1) e1 (Zpos m2) e2)))%Z.
Proof.
  unfold SFdiv_core_binary.
  set (s := (e1 - e2 - _)%Z).
  set (m' := match s with Zpos _ => Z.shiftl (Zpos m1) s | Z0 => Zpos m1 | Zneg _ => 0%Z end).
  assert (Hm' : (0 <= m')%Z).
  { subst m'. destruct s; try lia. apply Z.shiftl_nonneg. lia. }
  pose proof (Z_div_mod m' (Zpos m2) eq_refl) as Hdiv.
  destruct (Z.div_eucl m' (Zpos m2)) as [q r]. simpl.
  destruct Hdiv as [Heq Hr]. nia.
Qed.

(** Multiplying by a positive finite number keeps the sign. *)
Lemma mul_positive_sign (x : spec_float) (m : positive) (e : Z) :
  sign_of_spec (SF64mul x (S754_finite false m e)) = sign_of_spec x.
Proof.
  unfold SF64mul, SFmul.
  destruct x as [s'|s'| |s' m' e']; cbv beta iota; rewrite ?xorb_false_r;
    try reflexivity.
  apply binary_round_aux_sign. lia.
Qed.

(** Dividing by a positive finite number keeps the sign. *)
Lemma div_positive_sign (x : spec_float) (m : positive) (e : Z) :
  sign_of_spec (SF64div x (S754_finite false m e)) = sign_of_spec x.
Proof.
  unfold SF64div, SFdiv.
  destruct x as [s'|s'| |s' m' e']; cbv beta iota; rewrite ?xorb_false_r;
    try reflexivity.
  pose proof (SFdiv_core_binary_nonneg prec emax m' m e' e) as Hq.
  destruct (SFdiv_core_binary _ _ _ _ _ _) as [[mz ez] lz]. simpl in Hq.
  apply binary_round_aux_sign, Hq.
Qed.

(** [x * pi / 180] has the sign of [x], and is a NaN only if [x] is. *)
Lemma radians_sign (x : float) :
  sign_of (x * pi / 180)%float = sign_of x.
Proof.
  unfold sign_of. rewrite div_spec, mul_spec.
  assert (Hpi : exists m e, Prim2SF pi = S754_finite false m e)
    by (vm_compute; eauto).
  assert (H180 : exists m e, Prim2SF 180%float = S754_finite false m e)
    by (vm_compute; eauto).
  destruct Hpi as (m1 & e1 & ->). destruct H180 as (m2 & e2 & ->).
  rewrite div_positive_sign. apply mul_positive_sign.
Qed.

(** The conversion at a few angles. *)
Lemma radians_examples :
  (180 * pi / 180 = pi)%float /\
  (90 * pi / 180 = 1.5707963267948966)%float /\
  (-45 * pi / 180 = -0.7853981633974483)%float /\
  (0 * pi / 180 = 0)%float.
Proof. repeat split; reflexivity. Qed.

(** ** The eight [execute] entry points *)

Lemma first_view_3d_selected (h : Host) (i : nat) (a : Area) :
  first_view_3d h i a -> exists rest, view_3d_areas h = (i, a) :: rest.
Proof.
  intros (Hi & Ha & Hfirst).
  exact (view_3d_from_first (screen_areas h) 0 i a Hi Ha Hfirst).
Qed.

(** The head of the selection is the first 3D view of the screen. *)
Lemma view_3d_from_head (l : list Area) (i j : nat) (a : Area)
  (rest : list (nat * Area)) :
  view_3d_from i l = (j, a) :: rest ->
  exists k, j = (i + k)%nat /\ l !! k = Some a /\ is_VIEW_3D a = true /\
    forall m b, (m < k)%nat -> l !! m = Some b -> is_VIEW_3D b = false.
Proof.
  revert i; induction l as [|b l IH]; intros i H; simpl in H; [discriminate|].
  destruct (is_VIEW_3D b) eqn:Hb.
  - injection H as -> -> _. exists 0%nat.
    repeat split; [lia | assumption | intros m c Hm; lia].
  - destruct (IH _ H) as (k & -> & Hk & Ha & Hfirst).
    exists (S k). repeat split; [lia | exact Hk | exact Ha |].
    intros [|m] c Hm Hc; simpl in Hc; [congruence|].
    apply (Hfirst m c); [lia | exact Hc].
Qed.

Lemma selected_first_view_3d (h : Host) (i : nat) (a : Area)
  (rest : list (nat * Area)) :
  view_3d_areas h = (i, a) :: rest -> first_view_3d h i a.
Proof.
  intros H. destruct (view_3d_from_head _ _ _ _ _ H) as (k & -> & Hk & Ha & Hf).
  repeat split; assumption.
Qed.

(** Unfolds the eight [execute] bodies. *)
Ltac unfold_execute :=
  unfold PDT_OT_ViewRot_execute, PDT_OT_vRotL_execute, PDT_OT_vRotR_execute,
    PDT_OT_vRotU_execute, PDT_OT_vRotD_execute, orbit_execute,
    PDT_OT_vRoll_execute, PDT_OT_viso_execute.

Section Claims.

Variable euler_to_quaternion : float -> float -> float -> Quaternion.
Variable view_orbit : float -> OrbitType -> Py unit.
Variable view_roll : float -> RollType -> Py unit.
Variable recalculate : Quaternion -> float -> Vector -> Matrix -> Matrix.
Variable rotation_of_matrix : Matrix -> Quaternion.
Variable location_of_matrix : Matrix -> float -> Vector.

Local Abbreviation execute :=
  (execute euler_to_quaternion view_orbit view_roll recalculate
           rotation_of_matrix location_of_matrix).

(** Without a 3D view on the screen every operator returns
    [{"FINISHED"}] and leaves the host as it was. *)
Lemma execute_without_view_3d (cls : Operator) (h : Host) :
  no_view_3d h -> execute cls h = Returns [FINISHED] h.
Proof.
  intros Hno. pose proof (view_3d_from_none _ 0 Hno) as Hnil.
  destruct cls; simpl; unfold_execute;
    unfold PDT_OT_Reset3DView_execute, view_3d_areas, bind;
    rewrite Hnil; reflexivity.
Qed.

(** The assignment of a rotation to a referenced area whose space has a
    [region_3d]. *)
Lemma assign_view_rotation_effect (i : nat) (a : Area) (v : RegionView3D)
  (q : Quaternion) (h : Host) :
  region_3d (spaces_active a) = Some v ->
  assign_view_rotation (i, a) q h =
    Returns tt (set_screen_areas
                  (<[i := with_region a (with_view_rotation q v)]> (screen_areas h)) h).
Proof. intros Hv. unfold assign_view_rotation. simpl. now rewrite Hv. Qed.

(** C1: the reset operator is idempotent.  From every host state it
    returns [{"FINISHED"}], run again it returns [{"FINISHED"}] again,
    and the areas of the screen after the second run are those after the
    first: every 3D view has the same rotation, distance, location and
    view matrix. *)
Theorem reset_3d_view_idempotent (h : Host) :
  exists h1 h2,
    execute PDT_OT_Reset3DView h = Returns [FINISHED] h1 /\
    execute PDT_OT_Reset3DView h1 = Returns [FINISHED] h2 /\
    screen_areas h2 = screen_areas h1.
Proof.
  destruct (Reset3DView_effect recalculate rotation_of_matrix
              location_of_matrix h)
    as (h1 & Hrun1 & Hareas1 & _).
  destruct (Reset3DView_effect recalculate rotation_of_matrix
              location_of_matrix h1)
    as (h2 & Hrun2 & Hareas2 & _).
  exists h1, h2. repeat split; [exact Hrun1 | exact Hrun2 |].
  rewrite Hareas2, Hareas1, <- list_fmap_compose. apply list_fmap_ext.
  intros _ a _. apply reset_result_idempotent.
Qed.




(** C7: the orbit and roll operators.  With a 3D view area on the screen,
    each of the five operators makes one call of the host command, with
    the tag of its identifier and with the angle [vrotangle * pi / 180],
    the delta angle in radians, and then returns [{"FINISHED"}]; an
    exception of the host command is not caught.  Whatever the delta
    angle, the angle passed has its sign. *)
Theorem orbit_roll_delegation (h : Host) :
  (exists a, In a (screen_areas h) /\ is_VIEW_3D a = true) ->
  let angle := (vrotangle (pdt_pg h) * pi / 180)%float in
  (bl_idname PDT_OT_vRotL = "pdt.viewleft" /\
   execute PDT_OT_vRotL h
     = (view_orbit angle ORBITLEFT ;;; ret [FINISHED]) h) /\
  (bl_idname PDT_OT_vRotR = "pdt.viewright" /\
   execute PDT_OT_vRotR h
     = (view_orbit angle ORBITRIGHT ;;; ret [FINISHED]) h) /\
  (bl_idname PDT_OT_vRotU = "pdt.viewup" /\
   execute PDT_OT_vRotU h
     = (view_orbit angle ORBITUP ;;; ret [FINISHED]) h) /\
  (bl_idname PDT_OT_vRotD = "pdt.viewdown" /\
   execute PDT_OT_vRotD h
     = (view_orbit angle ORBITDOWN ;;; ret [FINISHED]) h) /\
  (bl_idname PDT_OT_vRoll = "pdt.viewroll" /\
   execute PDT_OT_vRoll h
     = (view_roll angle ANGLE ;;; ret [FINISHED]) h) /\
  sign_of angle = sign_of (vrotangle (pdt_pg h)).
Proof.
  intros Hsome angle. pose proof (view_3d_from_some _ 0 Hsome) as Hne.
  pose proof (radians_sign (vrotangle (pdt_pg h))) as Hsign.
  simpl. unfold_execute. unfold view_3d_areas.
  destruct (view_3d_from 0 (screen_areas h)) as [|r rest]; [congruence|].
  repeat split. exact Hsign.
Qed.

(** C9: no [execute] changes the scene settings.  Provided the host's own
    orbit and roll commands leave [scene.pdt_pg] alone, whether they
    return or raise, [rotation_coords] and [vrotangle] are the same after
    every [execute] of every operator, whether it returns or raises. *)
Theorem execute_preserves_settings (cls : Operator) (h : Host) :
  (forall angle type h0,
     pdt_pg (state_of (view_orbit angle type h0)) = pdt_pg h0) ->
  (forall angle type h0,
     pdt_pg (state_of (view_roll angle type h0)) = pdt_pg h0) ->
  let h' := state_of (execute cls h) in
  rotation_coords (pdt_pg h') = rotation_coords (pdt_pg h) /\
  vrotangle (pdt_pg h') = vrotangle (pdt_pg h).
Proof.
  intros Horbit Hroll h'.
  enough (H : pdt_pg h' = pdt_pg h) by (now rewrite H).
  assert (Hcall : forall (m : Py unit),
            pdt_pg (state_of (m h)) = pdt_pg h ->
            pdt_pg (state_of ((m ;;; ret [FINISHED]) h)) = pdt_pg h).
  { intros m Hm. unfold bind. destruct (m h); exact Hm. }
  subst h'. destruct cls; simpl; unfold_execute;
    try (destruct (view_3d_areas h) as [|[i a] rest];
         [reflexivity
         | first [apply Hcall, Horbit | apply Hcall, Hroll | idtac]]).
  - destruct (rotation_coords (pdt_pg h)) as [[x y] z].
    unfold bind, assign_view_rotation. simpl.
    destruct (region_3d (spaces_active a)); reflexivity.
  - unfold bind, assign_view_rotation. simpl.
    destruct (region_3d (spaces_active a)); reflexivity.
  - destruct (Reset3DView_effect recalculate rotation_of_matrix
                location_of_matrix h) as (h1 & Hrun & _ & Hsame).
    rewrite Hrun. simpl. apply Hsame.
Qed.

(** C3, as amended.  Without a 3D view area on the screen every
    [execute] returns [{"FINISHED"}] and leaves the host state as it
    was, and [{"FINISHED"}] is the only status an [execute] ever
    returns.  The reset operator always returns.  [pdt.viewrot] and
    [pdt.viewiso] return when the first 3D view area, if there is one,
    has a [region_3d].  With a 3D view area on the screen, an orbit or
    roll operator returns [{"FINISHED"}] from the state its host command
    leaves when that command returns, and when the command raises, the
    operator raises the same exception and returns no status. *)
Theorem execute_finished (cls : Operator) (h : Host) :
  (no_view_3d h -> execute cls h = Returns [FINISHED] h) /\
  (forall s h', execute cls h = Returns s h' -> s = [FINISHED]) /\
  (cls = PDT_OT_Reset3DView ->
   exists h', execute cls h = Returns [FINISHED] h') /\
  (cls = PDT_OT_ViewRot \/ cls = PDT_OT_viso ->
   (forall i a, first_view_3d h i a -> region_3d (spaces_active a) <> None) ->
   exists h', execute cls h = Returns [FINISHED] h') /\
  ((exists a, In a (screen_areas h) /\ is_VIEW_3D a = true) ->
   forall out,
     delegated_call view_orbit view_roll cls h = Some out ->
     execute cls h =
       match out with
       | Returns _ h' => Returns [FINISHED] h'
       | Raises e h' => Raises e h'
       end).
Proof.
  split; [apply execute_without_view_3d|].
  split; [|split; [|split]].
  - intros s h' Hrun.
    assert (Hcall : forall (m : Py unit),
              (m ;;; ret [FINISHED]) h = Returns s h' -> s = [FINISHED]).
    { intros m Hm. unfold bind in Hm. destruct (m h); [|discriminate].
      cbv [ret] in Hm. congruence. }
    destruct cls; simpl in Hrun;
      unfold PDT_OT_ViewRot_execute, PDT_OT_vRotL_execute,
        PDT_OT_vRotR_execute, PDT_OT_vRotU_execute, PDT_OT_vRotD_execute,
        orbit_execute, PDT_OT_vRoll_execute, PDT_OT_viso_execute in Hrun;
      try (destruct (view_3d_areas h) as [|r rest];
           [cbv [ret] in Hrun; congruence | exact (Hcall _ Hrun)]).
    + destruct (view_3d_areas h) as [|r rest];
        [cbv [ret] in Hrun; congruence|].
      destruct (rotation_coords (pdt_pg h)) as [[x y] z].
      exact (Hcall _ Hrun).
    + destruct (Reset3DView_effect recalculate rotation_of_matrix
                  location_of_matrix h) as (h1 & Hrun1 & _).
      rewrite Hrun1 in Hrun. congruence.
  - intros ->.
    destruct (Reset3DView_effect recalculate rotation_of_matrix
                location_of_matrix h) as (h1 & Hrun & _). eauto.
  - intros Hcls Hregion.
    assert (Hrot : forall q rest i a,
              view_3d_areas h = (i, a) :: rest ->
              exists h1, assign_view_rotation (i, a) q h = Returns tt h1).
    { intros q rest i a Hsel.
      pose proof (Hregion i a (selected_first_view_3d h i a rest Hsel)) as Hv.
      unfold assign_view_rotation. simpl.
      destruct (region_3d (spaces_active a)); [eauto | congruence]. }
    destruct Hcls as [-> | ->]; simpl; unfold_execute;
      (destruct (view_3d_areas h) as [|[i a] rest] eqn:Hsel;
       [cbv [ret]; eauto|]).
    + destruct (rotation_coords (pdt_pg h)) as [[x y] z]. unfold bind.
      destruct (Hrot (euler_to_quaternion (x * pi / 180) (y * pi / 180)
                        (z * pi / 180))%float rest i a eq_refl) as [h1 ->].
      cbv [ret]. eauto.
    + unfold bind.
      destruct (Hrot (mathutils_Quaternion
                        (0.8205, 0.4247, -0.1759, -0.3399)%float)
                  rest i a eq_refl) as [h1 ->].
      cbv [ret]. eauto.
  - intros Hsome out Hout.
    pose proof (view_3d_from_some _ 0 Hsome) as Hne.
    change (view_3d_from 0 (screen_areas h)) with (view_3d_areas h) in Hne.
    destruct cls; simpl in Hout; try discriminate;
      injection Hout as <-; simpl; unfold_execute;
      (destruct (view_3d_areas h) as [|r rest]; [congruence|]);
      unfold bind;
      match goal with
      | |- match ?m with _ => _ end = _ => destruct m; reflexivity
      end.
Qed.

End Claims.

(** ** Python list indexing *)

Lemma py_index_lt (len : nat) (i : Z) (n : nat) :
  py_index len i = Some n -> (n < len)%nat.
Proof.
  unfold py_index. intros H.
  destruct (i <? 0)%Z eqn:Hneg;
    destruct ((_ <? 0)%Z || (_ <=? _)%Z) eqn:Hout; try discriminate;
    injection H as <-; apply orb_false_elim in Hout as [H1 H2]; lia.
Qed.

Lemma py_index_from_end (len : nat) (i : Z) :
  (- Z.of_nat len <= i < 0)%Z ->
  py_index len i = Some (Z.to_nat (Z.of_nat len + i)).
Proof.
  intros Hi. unfold py_index.
  replace (i <? 0)%Z with true by lia.
  replace ((i + Z.of_nat len <? 0)%Z || (Z.of_nat len <=? i + Z.of_nat len)%Z)
    with false by lia.
  f_equal. lia.
Qed.

Lemma py_index_from_start (len : nat) (i : Z) :
  (0 <= i < Z.of_nat len)%Z -> py_index len i = Some (Z.to_nat i).
Proof.
  intros Hi. unfold py_index.
  replace (i <? 0)%Z with false by lia.
  replace ((i <? 0)%Z || (Z.of_nat len <=? i)%Z) with false by lia.
  reflexivity.
Qed.

Lemma py_index_out_of_range (len : nat) (i : Z) :
  (Z.of_nat len <= i \/ i < - Z.of_nat len)%Z -> py_index len i = None.
Proof.
  intros Hi. unfold py_index.
  destruct (i <? 0)%Z eqn:Hneg.
  - replace ((i + Z.of_nat len <? 0)%Z || (Z.of_nat len <=? i + Z.of_nat len)%Z)
      with true by lia. reflexivity.
  - replace ((i <? 0)%Z || (Z.of_nat len <=? i)%Z) with true by lia. reflexivity.
Qed.

(** ** The tooltip highlight *)

Lemma highlight_sets_flag (ui_group : Z) (n : nat) (h : Host) :
  py_index (length (ui_groups h)) ui_group = Some n ->
  highlight ui_group h =
    Returns tt
      (set_timers
         (timers h ++ [mkTimer (clock h + 2.0)%float (set_false ui_group)])
         (set_redraw_tags (S (redraw_tags h))
            (set_ui_groups (<[n := true]> (ui_groups h)) h))).
Proof.
  intros Hn. unfold highlight, bind, ui_groups_setitem, list_setitem.
  rewrite Hn. reflexivity.
Qed.

Lemma highlight_raises (ui_group : Z) (h : Host) :
  py_index (length (ui_groups h)) ui_group = None ->
  highlight ui_group h = Raises IndexError h.
Proof.
  intros Hn. unfold highlight, bind, ui_groups_setitem, list_setitem.
  rewrite Hn. reflexivity.
Qed.

Lemma set_false_clears_flag (ui_group : Z) (n : nat) (h : Host) :
  py_index (length (ui_groups h)) ui_group = Some n ->
  call (set_false ui_group) h =
    Returns None
      (set_redraw_tags (S (redraw_tags h))
         (set_ui_groups (<[n := false]> (ui_groups h)) h)).
Proof.
  intros Hn. unfold call, bind, ui_groups_setitem, list_setitem.
  rewrite Hn. reflexivity.
Qed.

Lemma set_false_raises (ui_group : Z) (h : Host) :
  py_index (length (ui_groups h)) ui_group = None ->
  call (set_false ui_group) h = Raises IndexError h.
Proof.
  intros Hn. unfold call, bind, ui_groups_setitem, list_setitem.
  rewrite Hn. reflexivity.
Qed.

(** A registered function returns [None] or raises: it never asks to run
    again. *)
Lemma call_one_shot (f : Callback) (h : Host) :
  exists h', (call f h = Returns None h' \/ exists e, call f h = Raises e h') /\
    length (ui_groups h') = length (ui_groups h) /\
    forall n, target (length (ui_groups h)) (mkTimer 0%float f) <> Some n ->
              ui_groups h' !! n = ui_groups h !! n.
Proof.
  destruct f as [g]. unfold target. cbn [timer_function].
  destruct (py_index (length (ui_groups h)) g) as [m|] eqn:Hm.
  - rewrite (set_false_clears_flag g m h Hm). eexists. split; [left; reflexivity|].
    simpl. split; [apply length_insert|].
    intros n Hn. apply list_lookup_insert_ne. congruence.
  - rewrite (set_false_raises g h Hm). exists h. split; [right; eauto|].
    split; reflexivity.
Qed.

(** ** The host's timers *)

Lemma run_timers_app (now : float) (ts1 ts2 : list Timer) (h : Host) :
  run_timers now (ts1 ++ ts2) h =
    let (kept1, h1) := run_timers now ts1 h in
    let (kept2, h2) := run_timers now ts2 h1 in
    (kept1 ++ kept2, h2).
Proof.
  revert h; induction ts1 as [|t ts1 IH]; intros h; simpl.
  - destruct (run_timers now ts2 h); reflexivity.
  - destruct (next_time t <=? now)%float.
    + destruct (call (timer_function t) h) as [[again|] h'|e h'];
        rewrite IH; destruct (run_timers now ts1 h') as [k1 h1];
        destruct (run_timers now ts2 h1); reflexivity.
    + rewrite IH. destruct (run_timers now ts1 h) as [k1 h1].
      destruct (run_timers now ts2 h1); reflexivity.
Qed.

(** Firing timers keeps the length of the flag list, and the flags no
    fired timer aims at. *)
Lemma run_timers_flags (now : float) (ts : list Timer) (h : Host) (n : nat) :
  Forall (fun t => target (length (ui_groups h)) t <> Some n) ts ->
  length (ui_groups (snd (run_timers now ts h))) = length (ui_groups h) /\
  ui_groups (snd (run_timers now ts h)) !! n = ui_groups h !! n.
Proof.
  revert h; induction ts as [|t ts IH]; intros h Hts; simpl; [split; reflexivity|].
  inversion Hts as [|t' ts' Ht Hrest]; subst.
  destruct (next_time t <=? now)%float.
  - destruct (call_one_shot (timer_function t) h) as (h' & Hcall & Hlen & Hflags).
    assert (Hstep : run_timers now ts h' =
              match call (timer_function t) h with
              | Returns (Some again) h' =>
                  let (kept, h'') := run_timers now ts h' in
                  (mkTimer (now + again) (timer_function t) :: kept, h'')
              | Returns None h' => run_timers now ts h'
              | Raises _ h' => run_timers now ts h'
              end).
    { destruct Hcall as [-> | [e ->]]; reflexivity. }
    rewrite <- Hstep. rewrite <- Hlen in Hrest.
    destruct (IH h' Hrest) as [IH1 IH2].
    split; [congruence|]. rewrite IH2. apply Hflags.
    destruct t as [due f]. exact Ht.
  - destruct (run_timers now ts h) as [kept h'] eqn:Hrun.
    specialize (IH h Hrest). rewrite Hrun in IH. exact IH.
Qed.

(** After the host has run the timers that are due, none of them is
    registered any more, and the others are as they were. *)
Lemma run_timers_kept (now : float) (ts : list Timer) (h : Host) :
  fst (run_timers now ts h) =
    List.filter (fun t => negb (next_time t <=? now)%float) ts.
Proof.
  revert h; induction ts as [|t ts IH]; intros h; simpl; [reflexivity|].
  destruct (next_time t <=? now)%float; simpl.
  - destruct (call_one_shot (timer_function t) h) as (h' & [-> | [e ->]] & _);
      apply IH.
  - specialize (IH h). destruct (run_timers now ts h). simpl in *. now f_equal.
Qed.

(** ** The description hook *)

Lemma description_defined (cls : Operator) (text : string) (ui_group : Z) :
  bl_description cls = Some text ->
  description cls ui_group = Some (description_hook text ui_group).
Proof. intros H. unfold description. now rewrite H. Qed.

Lemma description_hook_highlights (text : string) (ui_group : Z) (h : Host) :
  ui_group <> (-1)%Z ->
  description_hook text ui_group h = (highlight ui_group ;;; ret text) h.
Proof.
  intros Hg. unfold description_hook.
  apply Z.eqb_neq in Hg. now rewrite Hg.
Qed.

(** C8, as amended: the highlight window.  A tooltip request with a
    [ui_group] other than [-1] that names flag [n] of the list, made
    while no registered callback aims at that flag, returns the
    description with the flag set, one redraw more and one more timer,
    due 2.0 seconds from now, for [set_false].  That function called
    then returns [None] (the host runs it once), clears the flag and
    redraws once more.  At every later host time the flag is true before
    the due time and false from the due time on, and the timer is gone
    once it has run. *)
Theorem highlight_window (cls : Operator) (text : string) (h : Host)
  (ui_group : Z) (n : nat) :
  bl_description cls = Some text ->
  ui_group <> (-1)%Z ->
  py_index (length (ui_groups h)) ui_group = Some n ->
  Forall (fun t => target (length (ui_groups h)) t <> Some n) (timers h) ->
  let due := (clock h + 2.0)%float in
  exists p h1,
    description cls ui_group = Some p /\
    p h = Returns text h1 /\
    ui_groups h1 !! n = Some true /\
    redraw_tags h1 = S (redraw_tags h) /\
    timers h1 = timers h ++ [mkTimer due (set_false ui_group)] /\
    (exists h2,
       call (set_false ui_group) h1 = Returns None h2 /\
       ui_groups h2 !! n = Some false /\
       redraw_tags h2 = S (redraw_tags h1)) /\
    forall now,
      ui_groups (tick now h1) !! n = Some (negb (due <=? now)%float) /\
      ((due <=? now)%float = true ->
       ~ In (mkTimer due (set_false ui_group)) (timers (tick now h1))).
Proof.
  intros Hcls Hg Hn Hpending due.
  pose proof (py_index_lt _ _ _ Hn) as Hlt.
  exists (description_hook text ui_group). eexists.
  split; [apply description_defined, Hcls|].
  split.
  { rewrite description_hook_highlights by exact Hg.
    unfold bind. rewrite (highlight_sets_flag ui_group n h Hn). reflexivity. }
  set (h1 := set_timers _ _).
  assert (Hflags1 : ui_groups h1 = <[n := true]> (ui_groups h)) by reflexivity.
  assert (Hlen1 : length (ui_groups h1) = length (ui_groups h))
    by (rewrite Hflags1; apply length_insert).
  split; [rewrite Hflags1; now apply list_lookup_insert_eq|].
  split; [reflexivity|]. split; [reflexivity|]. split.
  { eexists. split.
    - apply set_false_clears_flag. rewrite Hlen1. exact Hn.
    - simpl. split; [|reflexivity].
      apply list_lookup_insert_eq. now rewrite length_insert. }
  intros now. unfold tick.
  change (timers h1) with (timers h ++ [mkTimer due (set_false ui_group)]).
  rewrite run_timers_app.
  pose proof (run_timers_flags now (timers h) (set_clock now h1) n) as Hframe.
  pose proof (run_timers_kept now (timers h) (set_clock now h1)) as Hkept.
  destruct (run_timers now (timers h) (set_clock now h1)) as [kept1 ha].
  cbn [fst snd] in Hframe, Hkept.
  destruct Hframe as [Hlena Hflaga].
  { change (ui_groups (set_clock now h1)) with (ui_groups h1).
    rewrite Hlen1. exact Hpending. }
  change (ui_groups (set_clock now h1)) with (ui_groups h1) in Hlena, Hflaga.
  cbn [run_timers next_time timer_function].
  destruct (due <=? now)%float eqn:Hdue.
  - rewrite (set_false_clears_flag ui_group n ha)
      by (rewrite Hlena, Hlen1; exact Hn).
    simpl. split.
    + apply list_lookup_insert_eq. rewrite Hlena, Hlen1. exact Hlt.
    + intros _ Hin. rewrite app_nil_r, Hkept in Hin.
      apply filter_In in Hin as [_ Hnot]. simpl in Hnot.
      fold due in Hnot. rewrite Hdue in Hnot. discriminate.
  - simpl. split; [|discriminate].
    rewrite Hflaga, Hflags1. now apply list_lookup_insert_eq.
Qed.

(** C10: the flag list is indexed without a bounds check.  With any
    [ui_group] other than [-1] the hook runs [highlight], whose first
    step is the list assignment.  A negative [ui_group] down to minus the
    length of the list sets the flag counted from the end of the list,
    and the hook returns; a [ui_group] at or beyond the length raises
    [IndexError], which the hook does not catch, and the host state stays
    as it was. *)
Theorem highlight_index_unchecked (cls : Operator) (text : string) (h : Host)
  (ui_group : Z) :
  bl_description cls = Some text ->
  ui_group <> (-1)%Z ->
  let len := Z.of_nat (length (ui_groups h)) in
  exists p,
    description cls ui_group = Some p /\
    p h = (highlight ui_group ;;; ret text) h /\
    ((- len <= ui_group < -1)%Z ->
     exists h',
       p h = Returns text h' /\
       ui_groups h' = <[Z.to_nat (len + ui_group) := true]> (ui_groups h) /\
       ui_groups h' !! Z.to_nat (len + ui_group) = Some true) /\
    ((len <= ui_group)%Z -> p h = Raises IndexError h).
Proof.
  intros Hcls Hg len. exists (description_hook text ui_group).
  split; [apply description_defined, Hcls|].
  split; [apply description_hook_highlights, Hg|].
  rewrite description_hook_highlights by exact Hg. unfold bind. split.
  - intros Hrange.
    assert (Hn : py_index (length (ui_groups h)) ui_group
                 = Some (Z.to_nat (len + ui_group)))
      by (apply py_index_from_end; subst len; lia).
    rewrite (highlight_sets_flag _ _ h Hn). eexists. split; [reflexivity|].
    simpl. split; [reflexivity|].
    apply list_lookup_insert_eq. subst len. lia.
  - intros Hrange. rewrite highlight_raises; [reflexivity|].
    apply py_index_out_of_range. subst len. lia.
Qed.

(** Below minus the length of the list the assignment raises as well. *)
Lemma highlight_index_below_range (text : string) (h : Host) (ui_group : Z) :
  (ui_group < - Z.of_nat (length (ui_groups h)))%Z ->
  ui_group <> (-1)%Z ->
  description_hook text ui_group h = Raises IndexError h.
Proof.
  intros Hrange Hg. rewrite description_hook_highlights by exact Hg.
  unfold bind. rewrite highlight_raises; [reflexivity|].
  apply py_index_out_of_range. lia.
Qed.

(** An index from 0 up to the length of the list sets that flag. *)
Lemma highlight_index_in_range (text : string) (h : Host) (ui_group : Z) :
  (0 <= ui_group < Z.of_nat (length (ui_groups h)))%Z ->
  exists h',
    description_hook text ui_group h = Returns text h' /\
    ui_groups h' = <[Z.to_nat ui_group := true]> (ui_groups h).
Proof.
  intros Hrange. rewrite description_hook_highlights by lia. unfold bind.
  rewrite (highlight_sets_flag _ _ h (py_index_from_start _ _ Hrange)).
  eexists. split; reflexivity.
Qed.

(** With the sentinel [-1] the hook touches nothing. *)
Lemma description_hook_sentinel (text : string) (h : Host) :
  description_hook text (-1) h = Returns text h.
Proof. reflexivity. Qed.

(** ** The declared properties *)

(** C2, as amended: six of the eight operators declare [ui_group], an
    integer property with default [-1] and the options [HIDDEN] and
    [SKIP_SAVE]; [pdt.viewiso] and [pdt.reset_3d_view] declare no
    property at all. *)
Theorem ui_group_declarations :
  map bl_idname operators =
    ["pdt.viewrot"; "pdt.viewleft"; "pdt.viewright"; "pdt.viewup";
     "pdt.viewdown"; "pdt.viewroll"; "pdt.viewiso"; "pdt.reset_3d_view"] /\
  Forall (fun cls => declares_ui_group cls /\
                     properties cls =
                       [("ui_group", mkIntProperty (-1) [HIDDEN; SKIP_SAVE])])
         [PDT_OT_ViewRot; PDT_OT_vRotL; PDT_OT_vRotR; PDT_OT_vRotU;
          PDT_OT_vRotD; PDT_OT_vRoll] /\
  Forall (fun cls => properties cls = [] /\ ~ declares_ui_group cls)
         [PDT_OT_viso; PDT_OT_Reset3DView].
Proof.
  split; [reflexivity|]. split.
  - repeat constructor;
      (eexists; split; [reflexivity|]; split; [reflexivity|];
       unfold has_option; simpl; auto).
  - repeat constructor; intros (p & Hp & _); discriminate.
Qed.

(** C2, as stated, fails: [pdt.viewiso] is one of the eight operators and
    declares no [ui_group]. *)
Lemma viewiso_declares_no_ui_group : ~ every_operator_declares_ui_group.
Proof.
  intros H. destruct (H PDT_OT_viso) as (p & Hp & _).
  - unfold operators. simpl. tauto.
  - discriminate.
Qed.

(** ** Runs on the concrete host *)

(** Every operator on a screen without a 3D view. *)
Lemma execute_on_host_without_view_3d (cls : Operator) :
  execute sample_euler_to_quaternion sample_view_orbit sample_view_roll
          sample_recalculate sample_rotation_of_matrix
          sample_location_of_matrix cls host_without_view_3d
    = Returns [FINISHED] host_without_view_3d.
Proof. destruct cls; reflexivity. Qed.

(** [pdt.viewrot] on a screen whose 3D view area has no [region_3d]. *)
Lemma viewrot_without_region :
  execute sample_euler_to_quaternion sample_view_orbit sample_view_roll
          sample_recalculate sample_rotation_of_matrix
          sample_location_of_matrix PDT_OT_ViewRot host_without_region
    = Raises AttributeError host_without_region.
Proof. reflexivity. Qed.

(** [pdt.viewiso] on the same screen. *)
Lemma viewiso_without_region :
  execute sample_euler_to_quaternion sample_view_orbit sample_view_roll
          sample_recalculate sample_rotation_of_matrix
          sample_location_of_matrix PDT_OT_viso host_without_region
    = Raises AttributeError host_without_region.
Proof. reflexivity. Qed.

(** [pdt.viewleft] on the sample screen when the host's orbit command
    refuses to run. *)
Lemma viewleft_refused :
  execute sample_euler_to_quaternion refusing_view_orbit sample_view_roll
          sample_recalculate sample_rotation_of_matrix
          sample_location_of_matrix PDT_OT_vRotL sample_host
    = Raises RuntimeError sample_host.
Proof. reflexivity. Qed.

(** C3, as stated, fails: with a 3D view on the screen [pdt.viewleft]
    calls the host's orbit command, and when that command refuses to run
    and raises [RuntimeError], the operator raises it too and returns no
    status. *)
Lemma viewleft_does_not_finish : ~ every_execute_finishes.
Proof.
  intros H.
  destruct (H sample_euler_to_quaternion refusing_view_orbit sample_view_roll
              sample_recalculate sample_rotation_of_matrix
              sample_location_of_matrix PDT_OT_vRotL sample_host)
    as (h' & Hrun & _).
  rewrite viewleft_refused in Hrun. discriminate.
Qed.

(** C8, as stated, fails: the third of three tooltip requests for group 0
    is made at 2.5 s with the flag false, and the callback of the second
    request clears the flag at 3 s, half a second later. *)
Lemma highlight_window_cut_short : ~ highlight_window_claim.
Proof.
  intros H.
  destruct (H PDT_OT_ViewRot "View Rotation by Absolute Values"
              host_with_pending_callback 0%Z)
    as (p & h1 & Hp & Hrun & _ & Hwindow).
  - reflexivity.
  - discriminate.
  - vm_compute. reflexivity.
  - injection Hp as <-. vm_compute in Hrun. injection Hrun as <-.
    specialize (Hwindow 3%float). vm_compute in Hwindow.
    specialize (Hwindow eq_refl). discriminate.
Qed.

Lemma sample_first_view_3d :
  first_view_3d sample_host 1 (area_of "VIEW_3D" (Some user_view)).
Proof.
  split; [reflexivity|]. split; [reflexivity|].
  intros [|j] b Hj Hb; [|lia]. injection Hb as <-. reflexivity.
Qed.

Lemma sample_host_has_view_3d :
  exists a, In a (screen_areas sample_host) /\ is_VIEW_3D a = true.
Proof.
  exists (area_of "VIEW_3D" (Some user_view)). split; [|reflexivity].
  simpl. tauto.
Qed.

(** C3 on the sample screen: [pdt.viewleft] with a host command that
    runs and with one that refuses, and [pdt.viewrot], whose first 3D
    view area has a view. *)
Lemma execute_finished_witness :
  (exists a, In a (screen_areas sample_host) /\ is_VIEW_3D a = true) /\
  execute sample_euler_to_quaternion sample_view_orbit sample_view_roll
          sample_recalculate sample_rotation_of_matrix
          sample_location_of_matrix PDT_OT_vRotL sample_host
    = Returns [FINISHED] (set_redraw_tags 1 sample_host) /\
  execute sample_euler_to_quaternion refusing_view_orbit sample_view_roll
          sample_recalculate sample_rotation_of_matrix
          sample_location_of_matrix PDT_OT_vRotL sample_host
    = Raises RuntimeError sample_host /\
  (forall i a, first_view_3d sample_host i a ->
               region_3d (spaces_active a) <> None) /\
  exists h',
    execute sample_euler_to_quaternion sample_view_orbit sample_view_roll
            sample_recalculate sample_rotation_of_matrix
            sample_location_of_matrix PDT_OT_ViewRot sample_host
      = Returns [FINISHED] h'.
Proof.
  assert (H : forall i a, first_view_3d sample_host i a ->
                          region_3d (spaces_active a) <> None).
  { intros i a (Hi & Ha & _).
    destruct i as [|[|[|i]]]; simpl in Hi; try discriminate;
      injection Hi as <-; simpl; discriminate. }
  split; [exact sample_host_has_view_3d|]. split; [|split; [|split]].
  - exact (proj2 (proj2 (proj2 (proj2
             (execute_finished sample_euler_to_quaternion sample_view_orbit
                sample_view_roll sample_recalculate sample_rotation_of_matrix
                sample_location_of_matrix PDT_OT_vRotL sample_host))))
             sample_host_has_view_3d _ eq_refl).
  - exact (proj2 (proj2 (proj2 (proj2
             (execute_finished sample_euler_to_quaternion refusing_view_orbit
                sample_view_roll sample_recalculate sample_rotation_of_matrix
                sample_location_of_matrix PDT_OT_vRotL sample_host))))
             sample_host_has_view_3d _ eq_refl).
  - exact H.
  - exact (proj1 (proj2 (proj2 (proj2
             (execute_finished sample_euler_to_quaternion sample_view_orbit
                sample_view_roll sample_recalculate sample_rotation_of_matrix
                sample_location_of_matrix PDT_OT_ViewRot sample_host))))
             (or_introl eq_refl) H).
Defined.



(** The quaternion of the sample conversion is a single-precision
    one. *)
Lemma sample_quaternion_binary32 :
  quaternion_to_binary32
    (sample_euler_to_quaternion (90.0 * pi / 180) (0.0 * pi / 180)
                                (45.0 * pi / 180))%float
  = (sample_euler_to_quaternion (90.0 * pi / 180) (0.0 * pi / 180)
                                (45.0 * pi / 180))%float.
Proof. vm_compute. reflexivity. Qed.


(** C7 on the sample screen. *)
Lemma orbit_roll_delegation_witness :
  (exists a, In a (screen_areas sample_host) /\ is_VIEW_3D a = true) /\
  execute sample_euler_to_quaternion sample_view_orbit sample_view_roll
          sample_recalculate sample_rotation_of_matrix
          sample_location_of_matrix PDT_OT_vRotL sample_host
    = Returns [FINISHED]
        (state_of
           (sample_view_orbit (30.0 * pi / 180)%float ORBITLEFT sample_host)) /\
  execute sample_euler_to_quaternion sample_view_orbit sample_view_roll
          sample_recalculate sample_rotation_of_matrix
          sample_location_of_matrix PDT_OT_vRoll sample_host
    = Returns [FINISHED]
        (state_of
           (sample_view_roll (30.0 * pi / 180)%float ANGLE sample_host)).
Proof.
  split; [exact sample_host_has_view_3d|].
  destruct (orbit_roll_delegation sample_euler_to_quaternion sample_view_orbit
              sample_view_roll sample_recalculate sample_rotation_of_matrix
              sample_location_of_matrix sample_host sample_host_has_view_3d)
    as ((_ & HL) & _ & _ & _ & (_ & Hroll) & _).
  split; [exact HL | exact Hroll].
Defined.

(** C9 at [pdt.viewleft] on the sample screen. *)
Lemma execute_preserves_settings_witness :
  (forall angle type h0,
     pdt_pg (state_of (sample_view_orbit angle type h0)) = pdt_pg h0) /\
  (forall angle type h0,
     pdt_pg (state_of (sample_view_roll angle type h0)) = pdt_pg h0) /\
  let h' := state_of (execute sample_euler_to_quaternion sample_view_orbit
                        sample_view_roll sample_recalculate
                        sample_rotation_of_matrix sample_location_of_matrix
                        PDT_OT_vRotL sample_host) in
  rotation_coords (pdt_pg h') = (90.0, 0.0, 45.0)%float /\
  vrotangle (pdt_pg h') = 30.0%float.
Proof.
  split; [reflexivity|]. split; [reflexivity|].
  exact (execute_preserves_settings sample_euler_to_quaternion
           sample_view_orbit sample_view_roll sample_recalculate
           sample_rotation_of_matrix sample_location_of_matrix PDT_OT_vRotL
           sample_host (fun _ _ _ => eq_refl) (fun _ _ _ => eq_refl)).
Defined.

(** C8 for group 0 on a host with both flags false and no timer. *)
Lemma highlight_window_witness :
  bl_description PDT_OT_vRotU = Some "View Orbit Up by Delta Value" /\
  py_index (length (ui_groups (host_with []))) 0 = Some 0%nat /\
  Forall (fun t => target (length (ui_groups (host_with []))) t <> Some 0%nat)
         (timers (host_with [])) /\
  exists p h1,
    description PDT_OT_vRotU 0 = Some p /\
    p (host_with []) = Returns "View Orbit Up by Delta Value" h1 /\
    ui_groups h1 !! 0%nat = Some true /\
    ui_groups (tick 1.5 h1) !! 0%nat = Some true /\
    ui_groups (tick 2.0 h1) !! 0%nat = Some false.
Proof.
  split; [reflexivity|]. split; [reflexivity|]. split; [constructor|].
  destruct (highlight_window PDT_OT_vRotU "View Orbit Up by Delta Value"
              (host_with []) 0 0 eq_refl ltac:(discriminate) eq_refl
              (List.Forall_nil _))
    as (p & h1 & Hp & Hrun & Hflag & _ & _ & _ & Hwindow).
  exists p, h1. repeat split; try assumption.
  - apply (Hwindow 1.5%float).
  - apply (Hwindow 2.0%float).
Defined.

(** C10 for [ui_group = -2] and [ui_group = 2] on two flags. *)
Lemma highlight_index_unchecked_witness :
  bl_description PDT_OT_vRoll = Some "View Roll by Delta Value" /\
  (-2 <> -1)%Z /\ (2 <> -1)%Z /\
  (exists p h',
     description PDT_OT_vRoll (-2) = Some p /\
     p (host_with []) = Returns "View Roll by Delta Value" h' /\
     ui_groups h' = [true; false]) /\
  (exists p,
     description PDT_OT_vRoll 2 = Some p /\
     p (host_with []) = Raises IndexError (host_with [])).
Proof.
  split; [reflexivity|]. split; [discriminate|]. split; [discriminate|]. split.
  - destruct (highlight_index_unchecked PDT_OT_vRoll "View Roll by Delta Value"
                (host_with []) (-2) eq_refl ltac:(discriminate))
      as (p & Hp & _ & Hneg & _).
    destruct Hneg as (h' & Hrun & Hflags & _); [simpl; lia|].
    exists p, h'. repeat split; assumption.
  - destruct (highlight_index_unchecked PDT_OT_vRoll "View Roll by Delta Value"
                (host_with []) 2 eq_refl ltac:(discriminate))
      as (p & Hp & _ & _ & Hhigh).
    exists p. split; [exact Hp|]. apply Hhigh. simpl. lia.
Defined.

(** * Further properties of the operators *)

(** ** Writing the rotation of the first 3D view *)

(** Rewriting the head of the selection with an area of the same kind
    keeps the selection, with the new area in the head. *)
Lemma view_3d_from_insert_head (l : list Area) (i j : nat) (a a' : Area)
  (rest : list (nat * Area)) :
  view_3d_from i l = (j, a) :: rest ->
  is_VIEW_3D a' = true ->
  view_3d_from i (<[(j - i)%nat := a']> l) = (j, a') :: rest.
Proof.
  revert i; induction l as [|b l IH]; intros i Hsel Ha'; simpl in Hsel;
    [discriminate|].
  destruct (is_VIEW_3D b) eqn:Hb.
  - injection Hsel as -> -> <-. rewrite Nat.sub_diag. simpl. now rewrite Ha'.
  - destruct (view_3d_from_head _ _ _ _ _ Hsel) as (k & -> & _).
    replace (S i + k - i)%nat with (S (S i + k - S i)) by lia.
    simpl. rewrite Hb. apply IH; assumption.
Qed.

Lemma with_region_is_VIEW_3D (a : Area) (v : RegionView3D) :
  is_VIEW_3D (with_region a v) = is_VIEW_3D a.
Proof. reflexivity. Qed.

(** What [write_first_rotation] does when the first 3D view area has a
    view. *)
Lemma write_first_rotation_effect (q : Quaternion) (h : Host) (i : nat)
  (a : Area) (v : RegionView3D) (rest : list (nat * Area)) :
  view_3d_areas h = (i, a) :: rest ->
  region_3d (spaces_active a) = Some v ->
  write_first_rotation q h =
    Returns [FINISHED]
      (set_screen_areas
         (<[i := with_region a (with_view_rotation q v)]> (screen_areas h)) h).
Proof.
  intros Hsel Hv. unfold write_first_rotation. rewrite Hsel. unfold bind.
  now rewrite (assign_view_rotation_effect i a v q h Hv).
Qed.

(** A second write replaces the first: the rotation written last is the
    one that stays, and nothing else records the earlier write. *)
Lemma write_first_rotation_overrides (q1 q2 : Quaternion) (h : Host) :
  write_first_rotation q2 (state_of (write_first_rotation q1 h))
    = write_first_rotation q2 h.
Proof.
  destruct (view_3d_areas h) as [|[i a] rest] eqn:Hsel.
  - unfold write_first_rotation at 2. rewrite Hsel. reflexivity.
  - destruct (region_3d (spaces_active a)) as [v|] eqn:Hv.
    + rewrite (write_first_rotation_effect q1 h i a v rest Hsel Hv).
      rewrite (write_first_rotation_effect q2 h i a v rest Hsel Hv).
      cbn [state_of].
      set (a1 := with_region a (with_view_rotation q1 v)).
      assert (Ha : is_VIEW_3D a = true)
        by (destruct (selected_first_view_3d h i a rest Hsel) as (_ & H & _);
            exact H).
      assert (Hsel1 : view_3d_areas
                        (set_screen_areas (<[i := a1]> (screen_areas h)) h)
                      = (i, a1) :: rest).
      { unfold view_3d_areas in *. cbn [screen_areas set_screen_areas].
        pose proof (view_3d_from_insert_head _ 0 i a a1 rest Hsel Ha) as H.
        now rewrite Nat.sub_0_r in H. }
      rewrite (write_first_rotation_effect q2 _ i a1
                 (with_view_rotation q1 v) rest Hsel1 eq_refl).
      unfold set_screen_areas. cbn [screen_areas pdt_pg debug_output ui_groups
                                    redraw_tags timers clock].
      now rewrite list_insert_insert_eq.
    + unfold write_first_rotation. rewrite Hsel. unfold bind, assign_view_rotation.
      cbn [snd fst]. rewrite Hv. cbn [raise state_of]. rewrite Hsel.
      cbn [snd]. now rewrite Hv.
Qed.

Section RotationWrites.

Variable euler_to_quaternion : float -> float -> float -> Quaternion.
Variable view_orbit : float -> OrbitType -> Py unit.
Variable view_roll : float -> RollType -> Py unit.
Variable recalculate : Quaternion -> float -> Vector -> Matrix -> Matrix.
Variable rotation_of_matrix : Matrix -> Quaternion.
Variable location_of_matrix : Matrix -> float -> Vector.

Local Abbreviation execute :=
  (execute euler_to_quaternion view_orbit view_roll recalculate
           rotation_of_matrix location_of_matrix).

Lemma viso_as_write (h : Host) :
  execute PDT_OT_viso h =
    write_first_rotation
      (mathutils_Quaternion (0.8205, 0.4247, -0.1759, -0.3399)%float) h.
Proof. reflexivity. Qed.

Lemma viewrot_as_write (h : Host) :
  execute PDT_OT_ViewRot h =
    write_first_rotation
      (let '(x, y, z) := rotation_coords (pdt_pg h) in
       euler_to_quaternion (x * pi / 180) (y * pi / 180)
                           (z * pi / 180))%float h.
Proof.
  simpl. unfold PDT_OT_ViewRot_execute, write_first_rotation.
  destruct (view_3d_areas h); [reflexivity|].
  destruct (rotation_coords (pdt_pg h)) as [[x y] z]. reflexivity.
Qed.

Lemma write_first_rotation_keeps_settings (q : Quaternion) (h : Host) :
  pdt_pg (state_of (write_first_rotation q h)) = pdt_pg h.
Proof.
  unfold write_first_rotation.
  destruct (view_3d_areas h) as [|[i a] rest]; [reflexivity|].
  unfold bind, assign_view_rotation. cbn [snd fst].
  destruct (region_3d (spaces_active a)); reflexivity.
Qed.

(** The isometric quaternion as [mathutils.Quaternion] holds it: the
    four literals of the code rounded to single precision. *)
Lemma isometric_quaternion_binary32 :
  mathutils_Quaternion (0.8205, 0.4247, -0.1759, -0.3399)%float
  = (0.82050001621246338, 0.42469999194145203,
     -0.17589999735355377, -0.33989998698234558)%float.
Proof. vm_compute. reflexivity. Qed.

(** Stored in a view, it stays as it is. *)
Lemma isometric_quaternion_stored :
  quaternion_to_binary32
    (mathutils_Quaternion (0.8205, 0.4247, -0.1759, -0.3399)%float)
  = mathutils_Quaternion (0.8205, 0.4247, -0.1759, -0.3399)%float.
Proof. vm_compute. reflexivity. Qed.


(** The two operators that write a rotation compose by "the last one
    wins": run after [pdt.viewrot] or [pdt.viewiso], either of the two
    has the outcome, status or exception and host state, that it has
    when run alone.  In particular each of them is idempotent. *)
Theorem rotation_last_write_wins (h : Host) :
  execute PDT_OT_viso (state_of (execute PDT_OT_ViewRot h))
    = execute PDT_OT_viso h /\
  execute PDT_OT_ViewRot (state_of (execute PDT_OT_viso h))
    = execute PDT_OT_ViewRot h /\
  execute PDT_OT_viso (state_of (execute PDT_OT_viso h))
    = execute PDT_OT_viso h /\
  execute PDT_OT_ViewRot (state_of (execute PDT_OT_ViewRot h))
    = execute PDT_OT_ViewRot h.
Proof.
  repeat split;
    rewrite ?viso_as_write, ?viewrot_as_write,
            ?write_first_rotation_keeps_settings;
    apply write_first_rotation_overrides.
Qed.

End RotationWrites.

(** ** What the reset operator leaves alone *)

Section ResetFrame.

Variable euler_to_quaternion : float -> float -> float -> Quaternion.
Variable view_orbit : float -> OrbitType -> Py unit.
Variable view_roll : float -> RollType -> Py unit.
Variable recalculate : Quaternion -> float -> Vector -> Matrix -> Matrix.
Variable rotation_of_matrix : Matrix -> Quaternion.
Variable location_of_matrix : Matrix -> float -> Vector.

Local Abbreviation execute :=
  (execute euler_to_quaternion view_orbit view_roll recalculate
           rotation_of_matrix location_of_matrix).
Local Abbreviation reset_area :=
  (reset_area recalculate rotation_of_matrix location_of_matrix).
Local Abbreviation reset_result :=
  (reset_result recalculate rotation_of_matrix location_of_matrix).

Lemma reset_result_type (a : Area) :
  area_type (reset_result a) = area_type a.
Proof.
  unfold reset_result. destruct (is_VIEW_3D a); [|reflexivity].
  destruct (region_3d (spaces_active a)); reflexivity.
Qed.

Lemma reset_result_others (a : Area) :
  spaces_others (reset_result a) = spaces_others a.
Proof.
  unfold reset_result. destruct (is_VIEW_3D a); [|reflexivity].
  destruct (region_3d (spaces_active a)); reflexivity.
Qed.

(** The loop writes no debug line for an area without a view. *)
Lemma reset_loop_without_regions (l : list Area) (i : nat) (h : Host) :
  (forall a, In a l -> is_VIEW_3D a = true ->
             region_3d (spaces_active a) = None) ->
  for_each (view_3d_from i l) (reset_area) h = Returns tt h.
Proof.
  revert i; induction l as [|a l IH]; intros i Hl; simpl; [reflexivity|].
  assert (Hrest : forall b, In b l -> is_VIEW_3D b = true ->
                            region_3d (spaces_active b) = None)
    by (intros b Hb; apply Hl; now right).
  destruct (is_VIEW_3D a) eqn:Ha; [|apply IH, Hrest].
  simpl. unfold bind, reset_area. cbn [snd].
  rewrite (Hl a (or_introl eq_refl) Ha). cbn [ret]. apply IH, Hrest.
Qed.

(** The frame of the reset operator.  It always returns
    [{"FINISHED"}]; the screen keeps its areas in number, order and type,
    and each area keeps its spaces that are not on display; an area that
    is not a 3D view, or whose space has no [region_3d], is exactly as it
    was; the side-view flag of every view is as it was; scene settings,
    highlight flags, redraw requests, timers and clock are as they
    were. *)
Theorem reset_3d_view_leaves_the_rest (h : Host) :
  exists h',
    execute PDT_OT_Reset3DView h = Returns [FINISHED] h' /\
    length (screen_areas h') = length (screen_areas h) /\
    area_type <$> screen_areas h' = area_type <$> screen_areas h /\
    spaces_others <$> screen_areas h' = spaces_others <$> screen_areas h /\
    same_settings h h' /\
    forall i a,
      screen_areas h !! i = Some a ->
      exists a',
        screen_areas h' !! i = Some a' /\
        (is_VIEW_3D a = false \/ region_3d (spaces_active a) = None -> a' = a) /\
        (forall v, region_3d (spaces_active a) = Some v ->
           exists v', region_3d (spaces_active a') = Some v' /\
                      is_orthographic_side_view v' = is_orthographic_side_view v).
Proof.
  destruct (Reset3DView_effect recalculate rotation_of_matrix
              location_of_matrix h)
    as (h' & Hrun & Hareas & Hsame).
  exists h'. split; [exact Hrun|]. rewrite Hareas.
  split; [apply length_fmap|].
  split; [rewrite <- list_fmap_compose; apply list_fmap_ext;
          intros _ a _; apply reset_result_type|].
  split; [rewrite <- list_fmap_compose; apply list_fmap_ext;
          intros _ a _; apply reset_result_others|].
  split; [exact Hsame|].
  intros i a Hi. exists (reset_result a).
  split; [now rewrite list_lookup_fmap, Hi|]. split.
  - intros [Ha | Hv]; unfold reset_result.
    + now rewrite Ha.
    + rewrite Hv. now destruct (is_VIEW_3D a).
  - intros v Hv. unfold reset_result. rewrite Hv.
    destruct (is_VIEW_3D a); [|eauto].
    eexists. split; [reflexivity|]. unfold reset_view.
    destruct (is_orthographic_side_view v) eqn:Hside; simpl; now rewrite ?Hside.
Qed.

(** The guard [view is not None].  On a screen none of whose 3D view
    areas has a [region_3d], the reset operator returns [{"FINISHED"}]
    and changes nothing at all, the debug output included, where
    [pdt.viewrot] and [pdt.viewiso] raise [AttributeError] as soon as the
    first of these areas has none. *)
Theorem reset_3d_view_skips_missing_regions (h : Host) :
  (forall a, In a (screen_areas h) -> is_VIEW_3D a = true ->
             region_3d (spaces_active a) = None) ->
  execute PDT_OT_Reset3DView h = Returns [FINISHED] h /\
  ((exists a, In a (screen_areas h) /\ is_VIEW_3D a = true) ->
   execute PDT_OT_ViewRot h = Raises AttributeError h /\
   execute PDT_OT_viso h = Raises AttributeError h).
Proof.
  intros Hnone. split.
  - simpl. unfold PDT_OT_Reset3DView_execute, bind, view_3d_areas.
    now rewrite (reset_loop_without_regions _ 0 h Hnone).
  - intros Hsome. pose proof (view_3d_from_some _ 0 Hsome) as Hne.
    change (view_3d_from 0 (screen_areas h)) with (view_3d_areas h) in Hne.
    destruct (view_3d_areas h) as [|[i a] rest] eqn:Hsel; [congruence|].
    destruct (selected_first_view_3d h i a rest Hsel) as (Hi & Ha & _).
    assert (Hv : region_3d (spaces_active a) = None).
    { apply Hnone; [|exact Ha]. apply list_elem_of_In.
      eapply list_elem_of_lookup_2, Hi. }
    split; simpl; unfold PDT_OT_ViewRot_execute, PDT_OT_viso_execute;
      rewrite Hsel; try destruct (rotation_coords (pdt_pg h)) as [[x y] z];
      unfold bind, assign_view_rotation; cbn [snd]; now rewrite Hv.
Qed.

End ResetFrame.

(** ** What the tooltip hook and its callback leave alone *)

(** The tooltip hook, for every [ui_group], whether it returns or
    raises: it never touches the scene settings, the screen, the debug
    output or the clock; the flag list keeps its length; no flag other
    than the one [ui_group] names changes, and no flag is cleared; the
    timers registered before stay, in order, with at most one more after
    them; and at most one redraw is requested. *)
Theorem description_hook_frame (text : string) (ui_group : Z) (h : Host) :
  let h' := state_of (description_hook text ui_group h) in
  pdt_pg h' = pdt_pg h /\
  screen_areas h' = screen_areas h /\
  debug_output h' = debug_output h /\
  clock h' = clock h /\
  length (ui_groups h') = length (ui_groups h) /\
  (forall m, py_index (length (ui_groups h)) ui_group <> Some m ->
             ui_groups h' !! m = ui_groups h !! m) /\
  (forall m, ui_groups h !! m = Some true -> ui_groups h' !! m = Some true) /\
  (exists new, timers h' = timers h ++ new /\ (length new <= 1)%nat) /\
  (redraw_tags h <= redraw_tags h' <= S (redraw_tags h))%nat.
Proof.
  intros h'. subst h'.
  destruct (Z.eq_dec ui_group (-1)%Z) as [-> | Hg].
  - rewrite description_hook_sentinel. cbn [state_of].
    repeat match goal with |- _ /\ _ => split end; auto.
    exists []. split; [now rewrite app_nil_r | simpl; lia].
  - rewrite description_hook_highlights by exact Hg. unfold bind.
    destruct (py_index (length (ui_groups h)) ui_group) as [n|] eqn:Hn.
    + rewrite (highlight_sets_flag ui_group n h Hn). unfold ret.
      cbn [state_of pdt_pg screen_areas debug_output clock ui_groups timers
           redraw_tags set_timers set_redraw_tags set_ui_groups].
      repeat match goal with |- _ /\ _ => split end;
        try reflexivity; try lia.
      * apply length_insert.
      * intros m Hm. apply list_lookup_insert_ne. congruence.
      * intros m Hm. destruct (Nat.eq_dec n m) as [<- | Hnm].
        -- apply list_lookup_insert_eq. eapply lookup_lt_Some, Hm.
        -- now rewrite list_lookup_insert_ne.
      * eexists. split; [reflexivity | simpl; lia].
    + rewrite (highlight_raises ui_group h Hn). cbn [state_of].
      repeat match goal with |- _ /\ _ => split end; auto.
      exists []. split; [now rewrite app_nil_r | simpl; lia].
Qed.

(** A highlight and its callback.  For a [ui_group] other than [-1]
    that names flag [n], the hook returns, and its callback run right
    after returns [None] and leaves the flag list as it was before the
    request but for flag [n], which is false: the list is restored when
    the flag was false, and a flag that was true before the request is
    not put back.  Two redraws are requested in all. *)
Theorem highlight_round_trip (text : string) (ui_group : Z) (n : nat)
  (h : Host) :
  ui_group <> (-1)%Z ->
  py_index (length (ui_groups h)) ui_group = Some n ->
  exists h1 h2,
    description_hook text ui_group h = Returns text h1 /\
    call (set_false ui_group) h1 = Returns None h2 /\
    ui_groups h2 = <[n := false]> (ui_groups h) /\
    (ui_groups h !! n = Some false -> ui_groups h2 = ui_groups h) /\
    (ui_groups h !! n = Some true -> ui_groups h2 <> ui_groups h) /\
    redraw_tags h2 = S (S (redraw_tags h)).
Proof.
  intros Hg Hn. eexists. eexists. split.
  { rewrite description_hook_highlights by exact Hg. unfold bind.
    rewrite (highlight_sets_flag ui_group n h Hn). reflexivity. }
  split.
  { apply set_false_clears_flag. cbn [ui_groups set_timers set_redraw_tags
                                      set_ui_groups].
    rewrite length_insert. exact Hn. }
  cbn [ui_groups redraw_tags set_timers set_redraw_tags set_ui_groups].
  rewrite list_insert_insert_eq.
  split; [reflexivity|]. split; [|split; [|reflexivity]].
  - intros Hfalse. now apply list_insert_id.
  - intros Htrue Heq.
    assert (H : <[n := false]> (ui_groups h) !! n = Some false)
      by (apply list_lookup_insert_eq; eapply lookup_lt_Some, Htrue).
    rewrite Heq, Htrue in H. discriminate.
Qed.

(** Negative group numbers.  A [ui_group] from minus the length of the
    flag list up to [-2] sets the same flag as that number plus the
    length; [-1] is the sentinel, so it sets nothing, although as a
    Python index it denotes the last flag. *)
Theorem highlight_negative_alias (text : string) (ui_group : Z) (h : Host) :
  let len := Z.of_nat (length (ui_groups h)) in
  (- len <= ui_group < -1)%Z ->
  ui_groups (state_of (description_hook text ui_group h))
    = ui_groups (state_of (description_hook text (ui_group + len) h)) /\
  ui_groups (state_of (description_hook text (-1) h)) = ui_groups h /\
  ui_groups (state_of (description_hook text (len - 1) h))
    = <[Z.to_nat (len - 1) := true]> (ui_groups h).
Proof.
  intros len Hrange.
  assert (Hneg : py_index (length (ui_groups h)) ui_group
                 = Some (Z.to_nat (len + ui_group)))
    by (apply py_index_from_end; subst len; lia).
  assert (Hpos : py_index (length (ui_groups h)) (ui_group + len)
                 = Some (Z.to_nat (ui_group + len)))
    by (apply py_index_from_start; subst len; lia).
  assert (Hlast : py_index (length (ui_groups h)) (len - 1)
                  = Some (Z.to_nat (len - 1)))
    by (apply py_index_from_start; subst len; lia).
  repeat split.
  - rewrite !description_hook_highlights by lia. unfold bind.
    rewrite (highlight_sets_flag _ _ h Hneg), (highlight_sets_flag _ _ h Hpos).
    cbn [state_of ui_groups set_timers set_redraw_tags set_ui_groups].
    now rewrite Z.add_comm.
  - rewrite description_hook_highlights by lia. unfold bind.
    now rewrite (highlight_sets_flag _ _ h Hlast).
Qed.

(** What one call of [set_false] does to the flag list. *)
Lemma set_false_effect (ui_group : Z) (h : Host) :
  exists h',
    (call (set_false ui_group) h = Returns None h' \/
     call (set_false ui_group) h = Raises IndexError h') /\
    length (ui_groups h') = length (ui_groups h) /\
    (forall n, py_index (length (ui_groups h)) ui_group = Some n ->
               ui_groups h' !! n = Some false) /\
    (forall m, py_index (length (ui_groups h)) ui_group <> Some m ->
               ui_groups h' !! m = ui_groups h !! m).
Proof.
  destruct (py_index (length (ui_groups h)) ui_group) as [n|] eqn:Hn.
  - rewrite (set_false_clears_flag ui_group n h Hn). eexists.
    split; [left; reflexivity|]. cbn [ui_groups set_redraw_tags set_ui_groups].
    split; [apply length_insert|]. split.
    + intros n' Hn'. injection Hn' as <-.
      apply list_lookup_insert_eq. eapply py_index_lt, Hn.
    + intros m Hm. apply list_lookup_insert_ne. congruence.
  - rewrite (set_false_raises ui_group h Hn). exists h.
    split; [right; reflexivity|]. split; [reflexivity|].
    split; [discriminate | reflexivity].
Qed.

(** The callback [set_false], for every [ui_group], whether it returns
    or raises: it sets the flag its [ui_group] names to false when there
    is one and raises [IndexError] with nothing changed when there is
    none; it never returns a number, so the host never runs it a second
    time; it changes no other flag and sets none, registers no timer,
    and leaves the scene settings, the screen, the debug output and the
    clock alone. *)
Theorem set_false_frame (ui_group : Z) (h : Host) :
  exists h',
    (call (set_false ui_group) h = Returns None h' \/
     call (set_false ui_group) h = Raises IndexError h' /\ h' = h) /\
    pdt_pg h' = pdt_pg h /\
    screen_areas h' = screen_areas h /\
    debug_output h' = debug_output h /\
    clock h' = clock h /\
    timers h' = timers h /\
    length (ui_groups h') = length (ui_groups h) /\
    (forall n, py_index (length (ui_groups h)) ui_group = Some n ->
               ui_groups h' !! n = Some false) /\
    (forall m, py_index (length (ui_groups h)) ui_group <> Some m ->
               ui_groups h' !! m = ui_groups h !! m) /\
    (forall m, ui_groups h' !! m = Some true -> ui_groups h !! m = Some true).
Proof.
  destruct (py_index (length (ui_groups h)) ui_group) as [n|] eqn:Hn.
  - rewrite (set_false_clears_flag ui_group n h Hn). eexists.
    split; [left; reflexivity|].
    cbn [pdt_pg screen_areas debug_output clock ui_groups timers
         set_redraw_tags set_ui_groups].
    pose proof (py_index_lt _ _ _ Hn) as Hlt.
    repeat match goal with |- _ /\ _ => split end; try reflexivity.
    + apply length_insert.
    + intros n' Hn'. injection Hn' as <-. now apply list_lookup_insert_eq.
    + intros m Hm. apply list_lookup_insert_ne. congruence.
    + intros m Hm. destruct (Nat.eq_dec n m) as [<- | Hnm].
      * rewrite list_lookup_insert_eq in Hm by exact Hlt. discriminate.
      * now rewrite list_lookup_insert_ne in Hm.
  - rewrite (set_false_raises ui_group h Hn). exists h.
    split; [right; split; reflexivity|].
    repeat match goal with |- _ /\ _ => split end; try reflexivity.
    + intros n Hn'. discriminate.
    + auto.
Qed.

(** ** No highlight is left on *)

Lemma target_set_false (len : nat) (due : float) (ui_group : Z) :
  target len (mkTimer due (set_false ui_group)) = py_index len ui_group.
Proof. reflexivity. Qed.

(** The tooltip hook keeps the invariant that every flag that is set
    has a registered callback that will clear it: the flag it sets gets
    its callback in the same call, and the callbacks of the other flags
    stay registered. *)
Theorem description_hook_keeps_pending (text : string) (ui_group : Z)
  (h : Host) :
  highlight_pending h ->
  highlight_pending (state_of (description_hook text ui_group h)).
Proof.
  intros Hpending.
  destruct (Z.eq_dec ui_group (-1)%Z) as [-> | Hg];
    [now rewrite description_hook_sentinel|].
  rewrite description_hook_highlights by exact Hg. unfold bind.
  destruct (py_index (length (ui_groups h)) ui_group) as [n|] eqn:Hn.
  - rewrite (highlight_sets_flag ui_group n h Hn). unfold ret, highlight_pending.
    cbn [state_of ui_groups timers set_timers set_redraw_tags set_ui_groups].
    rewrite length_insert. intros m Hm. apply Exists_app.
    destruct (Nat.eq_dec n m) as [<- | Hnm].
    + right. constructor. now rewrite target_set_false.
    + left. apply Hpending. now rewrite list_lookup_insert_ne in Hm.
  - now rewrite (highlight_raises ui_group h Hn).
Qed.

(** Running the timers sets no flag, and a flag that is still set
    afterwards has kept every timer that aims at it. *)
Lemma run_timers_keeps_pending (now : float) (ts : list Timer) (h : Host) :
  length (ui_groups (snd (run_timers now ts h))) = length (ui_groups h) /\
  forall n,
    ui_groups (snd (run_timers now ts h)) !! n = Some true ->
    ui_groups h !! n = Some true /\
    Forall (fun t => target (length (ui_groups h)) t = Some n ->
                     In t (fst (run_timers now ts h))) ts.
Proof.
  revert h; induction ts as [|t ts IH]; intros h; simpl.
  - split; [reflexivity|]. intros n Hn. split; [exact Hn | constructor].
  - destruct (next_time t <=? now)%float.
    + destruct t as [due [g]]. cbn [timer_function].
      destruct (set_false_effect g h)
        as (h' & Hcall & Hlen & Hclear & Hother).
      assert (Hstep : match call (set_false g) h with
                      | Returns (Some again) h' =>
                          let (kept, h'') := run_timers now ts h' in
                          (mkTimer (now + again) (set_false g) :: kept, h'')
                      | Returns None h' => run_timers now ts h'
                      | Raises _ h' => run_timers now ts h'
                      end = run_timers now ts h')
        by (destruct Hcall as [-> | ->]; reflexivity).
      rewrite Hstep. destruct (IH h') as [IHlen IHflags].
      split; [congruence|]. intros n Hn.
      destruct (IHflags n Hn) as [Hn' Hkept]. rewrite Hlen in Hkept.
      assert (Hg : py_index (length (ui_groups h)) g <> Some n).
      { intros Hg. rewrite (Hclear n Hg) in Hn'. discriminate. }
      split; [now rewrite <- Hother|].
      constructor; [|exact Hkept].
      rewrite target_set_false. intros Hg'. contradiction.
    + destruct (IH h) as [IHlen IHflags].
      destruct (run_timers now ts h) as [kept h'] eqn:Hrun. cbn [fst snd] in *.
      split; [exact IHlen|]. intros n Hn.
      destruct (IHflags n Hn) as [Hn' Hkept]. split; [exact Hn'|].
      constructor; [intros _; now left|].
      revert Hkept. apply List.Forall_impl. intros t' Ht' Htarget.
      right. auto.
Qed.

(** No highlight is left on.  When the host runs its timers, the
    invariant that every flag that is set has a registered callback is
    kept; so once the clock has reached the due time of every registered
    timer, no timer is left and no flag is set. *)
Theorem tick_clears_highlights (now : float) (h : Host) :
  highlight_pending h ->
  highlight_pending (tick now h) /\
  (all_due now h ->
   timers (tick now h) = [] /\
   forall n, ui_groups (tick now h) !! n <> Some true).
Proof.
  intros Hpending. unfold tick.
  pose proof (run_timers_keeps_pending now (timers h) (set_clock now h))
    as [Hlen Hflags].
  pose proof (run_timers_kept now (timers h) (set_clock now h)) as Hkept.
  destruct (run_timers now (timers h) (set_clock now h)) as [kept h'].
  cbn [fst snd ui_groups set_clock] in *.
  assert (Hinv : forall n, ui_groups h' !! n = Some true ->
                   Exists (fun t => target (length (ui_groups h')) t = Some n)
                          kept).
  { intros n Hn. destruct (Hflags n Hn) as [Hn' Hall].
    apply Exists_exists. apply Hpending, Exists_exists in Hn'.
    destruct Hn' as (t & Hin & Ht). exists t. rewrite Hlen.
    split; [|exact Ht]. rewrite List.Forall_forall in Hall.
    apply list_elem_of_In. apply Hall; [now apply list_elem_of_In | exact Ht]. }
  split; [exact Hinv|].
  intros Hdue. unfold all_due in Hdue.
  assert (Hnil : kept = []).
  { rewrite Hkept. clear -Hdue. induction Hdue as [|t ts Ht _ IH];
      [reflexivity|]. simpl. now rewrite Ht. }
  cbn [timers ui_groups set_timers]. split; [exact Hnil|].
  intros n Hn. apply Hinv in Hn. rewrite Hnil in Hn. now apply Exists_nil in Hn.
Qed.

(** ** Angles that the conversion does not change *)

(** [x * pi / 180] is [x] itself when [x] is a zero, an infinity or a
    NaN. *)
Lemma radians_fixes_special_values (x : float) :
  zero_infinity_or_nan x -> (x * pi / 180)%float = x.
Proof.
  unfold zero_infinity_or_nan. intros Hx. apply Prim2SF_inj.
  rewrite div_spec, mul_spec.
  assert (Hpi : exists m e, Prim2SF pi = S754_finite false m e)
    by (vm_compute; eauto).
  assert (H180 : exists m e, Prim2SF 180%float = S754_finite false m e)
    by (vm_compute; eauto).
  destruct Hpi as (m1 & e1 & ->). destruct H180 as (m2 & e2 & ->).
  destruct (Prim2SF x) as [s|s| |s m e]; try contradiction;
    unfold SF64div, SF64mul; simpl; now rewrite ?xorb_false_r.
Qed.

(** A finite number other than zero is converted to a number, not to a
    NaN. *)
Lemma radians_of_finite_is_a_number (x : float) :
  sign_of x <> None -> sign_of (x * pi / 180)%float <> None.
Proof. now rewrite radians_sign. Qed.

Section SpecialAngles.

Variable euler_to_quaternion : float -> float -> float -> Quaternion.
Variable view_orbit : float -> OrbitType -> Py unit.
Variable view_roll : float -> RollType -> Py unit.
Variable recalculate : Quaternion -> float -> Vector -> Matrix -> Matrix.
Variable rotation_of_matrix : Matrix -> Quaternion.
Variable location_of_matrix : Matrix -> float -> Vector.

Local Abbreviation execute :=
  (execute euler_to_quaternion view_orbit view_roll recalculate
           rotation_of_matrix location_of_matrix).

(** Angles the conversion to radians does not change.  A delta angle
    that is a zero (of either sign), an infinity or a NaN reaches the
    host's orbit and roll commands as it is, and rotation angles of
    these kinds reach [euler_to_quaternion] as they are: a zero angle
    stays exactly zero, and the module filters no infinity and no NaN. *)
Theorem special_angles_pass_unchanged (h : Host) (i : nat) (a : Area)
  (v : RegionView3D) (x y z : float) :
  first_view_3d h i a ->
  region_3d (spaces_active a) = Some v ->
  (zero_infinity_or_nan (vrotangle (pdt_pg h)) ->
   (forall type,
      orbit_execute view_orbit type h =
        (view_orbit (vrotangle (pdt_pg h)) type ;;; ret [FINISHED]) h) /\
   execute PDT_OT_vRoll h =
     (view_roll (vrotangle (pdt_pg h)) ANGLE ;;; ret [FINISHED]) h) /\
  (rotation_coords (pdt_pg h) = (x, y, z) ->
   zero_infinity_or_nan x -> zero_infinity_or_nan y ->
   zero_infinity_or_nan z ->
   exists h',
     execute PDT_OT_ViewRot h = Returns [FINISHED] h' /\
     screen_areas h' !! i =
       Some (with_region a
               (with_view_rotation (euler_to_quaternion x y z) v))).
Proof.
  intros Hfirst Hv.
  destruct (first_view_3d_selected h i a Hfirst) as [rest Hsel].
  destruct Hfirst as (Hi & _ & _). split.
  - intros Hdelta. simpl.
    unfold orbit_execute, PDT_OT_vRoll_execute. rewrite Hsel.
    rewrite (radians_fixes_special_values _ Hdelta). split; reflexivity.
  - intros Hxyz Hx Hy Hz. eexists. split.
    + simpl. unfold PDT_OT_ViewRot_execute. rewrite Hsel, Hxyz. unfold bind.
      rewrite (assign_view_rotation_effect i a v _ h Hv).
      rewrite (radians_fixes_special_values _ Hx),
              (radians_fixes_special_values _ Hy),
              (radians_fixes_special_values _ Hz). reflexivity.
    + cbn [screen_areas set_screen_areas].
      apply list_lookup_insert_eq. eapply lookup_lt_Some, Hi.
Qed.

End SpecialAngles.

(** ** Runs of the further properties on the concrete hosts *)


(** The reset operator and [pdt.viewrot] on a screen whose 3D view
    areas have no [region_3d]. *)
Lemma reset_3d_view_skips_missing_regions_witness :
  (forall a, In a (screen_areas host_with_empty_views) ->
             is_VIEW_3D a = true -> region_3d (spaces_active a) = None) /\
  execute sample_euler_to_quaternion sample_view_orbit sample_view_roll
          sample_recalculate sample_rotation_of_matrix
          sample_location_of_matrix PDT_OT_Reset3DView host_with_empty_views
    = Returns [FINISHED] host_with_empty_views /\
  execute sample_euler_to_quaternion sample_view_orbit sample_view_roll
          sample_recalculate sample_rotation_of_matrix
          sample_location_of_matrix PDT_OT_ViewRot host_with_empty_views
    = Raises AttributeError host_with_empty_views.
Proof.
  assert (H : forall a, In a (screen_areas host_with_empty_views) ->
                        is_VIEW_3D a = true ->
                        region_3d (spaces_active a) = None).
  { intros a Hin _. simpl in Hin.
    destruct Hin as [<- | [<- | [<- | []]]]; reflexivity. }
  split; [exact H|].
  destruct (reset_3d_view_skips_missing_regions sample_euler_to_quaternion
              sample_view_orbit sample_view_roll sample_recalculate
              sample_rotation_of_matrix sample_location_of_matrix
              host_with_empty_views H) as [Hreset Hraise].
  split; [exact Hreset|]. apply Hraise.
  exists (area_of "VIEW_3D" None). split; [simpl; tauto | reflexivity].
Defined.

(** A highlight of group 0 and its callback on two flags that are off. *)
Lemma highlight_round_trip_witness :
  py_index (length (ui_groups (host_with []))) 0 = Some 0%nat /\
  exists h1 h2,
    description_hook "Rotate" 0 (host_with []) = Returns "Rotate" h1 /\
    call (set_false 0) h1 = Returns None h2 /\
    ui_groups h1 = [true; false] /\
    ui_groups h2 = ui_groups (host_with []) /\
    redraw_tags h2 = 2%nat.
Proof.
  split; [reflexivity|].
  destruct (highlight_round_trip "Rotate" 0 0 (host_with [])
              ltac:(discriminate) eq_refl)
    as (h1 & h2 & Hrun & Hcall & _ & Hrestored & _ & Hredraws).
  exists h1, h2. repeat split; try assumption.
  - vm_compute in Hrun. now injection Hrun as <-.
  - now apply Hrestored.
Defined.

(** Groups -2 and 0 of two flags are the same flag. *)
Lemma highlight_negative_alias_witness :
  (- Z.of_nat (length (ui_groups (host_with []))) <= -2 < -1)%Z /\
  ui_groups (state_of (description_hook "Rotate" (-2) (host_with [])))
    = ui_groups (state_of (description_hook "Rotate" 0 (host_with []))) /\
  ui_groups (state_of (description_hook "Rotate" (-1) (host_with [])))
    = [false; false].
Proof.
  assert (H : (- Z.of_nat (length (ui_groups (host_with []))) <= -2 < -1)%Z)
    by (simpl; lia).
  split; [exact H|].
  destruct (highlight_negative_alias "Rotate" (-2) (host_with []) H)
    as (Halias & Hsentinel & _).
  split; [exact Halias | exact Hsentinel].
Defined.

Lemma host_with_no_highlight_pending : highlight_pending (host_with []).
Proof.
  intros n Hn. destruct n as [|[|n]]; simpl in Hn; discriminate.
Qed.

(** The invariant after a request for group 1 on two flags that are
    off. *)
Lemma description_hook_keeps_pending_witness :
  highlight_pending (host_with []) /\
  highlight_pending (state_of (description_hook "Rotate" 1 (host_with []))).
Proof.
  split; [exact host_with_no_highlight_pending|].
  exact (description_hook_keeps_pending "Rotate" 1 (host_with [])
           host_with_no_highlight_pending).
Defined.

Lemma host_after_tooltip_pending : highlight_pending host_after_tooltip.
Proof.
  intros n Hn. destruct n as [|[|n]]; vm_compute in Hn; try discriminate.
  constructor. reflexivity.
Qed.

(** One request at 0 s, and the host clock at 2 s. *)
Lemma tick_clears_highlights_witness :
  highlight_pending host_after_tooltip /\
  all_due 2.0 host_after_tooltip /\
  ui_groups host_after_tooltip = [true; false] /\
  timers (tick 2.0 host_after_tooltip) = [] /\
  forall n, ui_groups (tick 2.0 host_after_tooltip) !! n <> Some true.
Proof.
  assert (Hdue : all_due 2.0 host_after_tooltip)
    by (repeat constructor).
  split; [exact host_after_tooltip_pending|]. split; [exact Hdue|].
  split; [reflexivity|].
  exact (proj2 (tick_clears_highlights 2.0 host_after_tooltip
                  host_after_tooltip_pending) Hdue).
Defined.

(** Zero, minus zero and infinity on the sample screen. *)
Lemma special_angles_pass_unchanged_witness :
  first_view_3d host_with_special_angles 1 (area_of "VIEW_3D" (Some user_view)) /\
  zero_infinity_or_nan (-0.0)%float /\ zero_infinity_or_nan infinity /\
  execute sample_euler_to_quaternion sample_view_orbit sample_view_roll
          sample_recalculate sample_rotation_of_matrix
          sample_location_of_matrix PDT_OT_vRoll host_with_special_angles
    = Returns [FINISHED]
        (state_of
           (sample_view_roll (-0.0)%float ANGLE host_with_special_angles)) /\
  exists h',
    execute sample_euler_to_quaternion sample_view_orbit sample_view_roll
            sample_recalculate sample_rotation_of_matrix
          sample_location_of_matrix PDT_OT_ViewRot host_with_special_angles
      = Returns [FINISHED] h' /\
    screen_areas h' !! 1%nat =
      Some (area_of "VIEW_3D"
              (Some (with_view_rotation
                       (sample_euler_to_quaternion 0.0 (-0.0) infinity)%float
                       user_view))).
Proof.
  assert (Hfirst : first_view_3d host_with_special_angles 1
                     (area_of "VIEW_3D" (Some user_view)))
    by exact sample_first_view_3d.
  assert (Hzero : zero_infinity_or_nan 0.0%float) by (vm_compute; exact I).
  assert (Hminus : zero_infinity_or_nan (-0.0)%float) by (vm_compute; exact I).
  assert (Hinf : zero_infinity_or_nan infinity) by (vm_compute; exact I).
  split; [exact Hfirst|]. split; [exact Hminus|]. split; [exact Hinf|].
  destruct (special_angles_pass_unchanged sample_euler_to_quaternion
              sample_view_orbit sample_view_roll sample_recalculate
              sample_rotation_of_matrix sample_location_of_matrix
              host_with_special_angles 1 (area_of "VIEW_3D" (Some user_view))
              user_view 0.0%float (-0.0)%float infinity Hfirst eq_refl)
    as [Hdelta Hrot].
  split; [exact (proj2 (Hdelta Hminus))|].
  exact (Hrot eq_refl Hzero Hminus Hinf).
Defined.
